(** * rax_clb_nodes: nodes of a Rackspace Cloud Load Balancer

    A shallow embedding of [cloud/rackspace/rax_clb_nodes.py].  The module
    looks a node up in the list the SDK returned, decides between
    no-op, create, update, delete and failure, and hands the mutation to
    the SDK.  The SDK calls are recorded in a trace, so that "never
    deletes" or "the diff sent to update" are statements about values. *)

From Stdlib Require Import ZArith Ascii String List Bool Lia.
From stdpp Require Import base decidable option list strings pretty gmap fin_maps.

Local Open Scope string_scope.
Local Open Scope Z_scope.
Local Open Scope list_scope.

(** ** Python strings: [str.lower] and [str.upper] on ASCII text *)

Module PyStr.

Definition lower_ascii (c : ascii) : ascii :=
  let n := nat_of_ascii c in
  if (65 <=? n)%nat && (n <=? 90)%nat then ascii_of_nat (n + 32) else c.

Definition upper_ascii (c : ascii) : ascii :=
  let n := nat_of_ascii c in
  if (97 <=? n)%nat && (n <=? 122)%nat then ascii_of_nat (n - 32) else c.

Fixpoint lower (s : string) : string :=
  match s with
  | EmptyString => EmptyString
  | String c r => String (lower_ascii c) (lower r)
  end.

Fixpoint upper (s : string) : string :=
  match s with
  | EmptyString => EmptyString
  | String c r => String (upper_ascii c) (upper r)
  end.

(** [sep.join(l)] *)
Fixpoint join (sep : string) (l : list string) : string :=
  match l with
  | [] => ""
  | [x] => x
  | x :: r => x +:+ sep +:+ join sep r
  end.

(** [x and x.upper()] on an optional string: [None] and the empty string
    are falsy and come back as they are. *)
Definition and_upper (x : option string) : option string :=
  match x with
  | None => None
  | Some "" => Some ""
  | Some s => Some (upper s)
  end.

End PyStr.

(** ** Data *)

(** A node as the SDK returns it.  [weight] may be unset. *)
Record Node := mkNode {
  id : Z;
  address : string;
  port : Z;
  condition : string;
  type : string;
  weight : option Z;
}.

Record LoadBalancer := mkLB {
  lb_id : Z;
  status : string;
  nodes : list Node;
}.

(** Values held by the dictionaries the module builds. *)
Inductive Value :=
| VNone
| VInt (n : Z)
| VStr (s : string).

#[global] Instance Value_eq_dec : EqDecision Value.
Proof. solve_decision. Defined.

#[global] Instance Node_eq_dec : EqDecision Node.
Proof. solve_decision. Defined.

Definition of_int (x : option Z) : Value :=
  match x with None => VNone | Some n => VInt n end.

Definition of_str (x : option string) : Value :=
  match x with None => VNone | Some s => VStr s end.

(** [getattr(node, name)] for the attributes the module reads. *)
Definition getattr (node : Node) (name : string) : Value :=
  if decide (name = "id") then VInt (id node)
  else if decide (name = "address") then VStr (address node)
  else if decide (name = "port") then VInt (port node)
  else if decide (name = "condition") then VStr (condition node)
  else if decide (name = "type") then VStr (type node)
  else if decide (name = "weight") then of_int (weight node)
  else VNone.

(** ** Lookup *)

(** The list of comparisons [_get_node] builds for one node: one entry
    per criterion that is not [None], in the order id, address, port. *)
Definition match_list (node : Node)
    (node_id : option Z) (addr : option string) (prt : option Z) : list bool :=
  (match node_id with Some i => [bool_decide (id node = i)] | None => [] end) ++
  (match addr with Some a => [bool_decide (address node = a)] | None => [] end) ++
  (match prt with Some p => [bool_decide (port node = p)] | None => [] end).

(** Python's [all]. *)
Definition all (l : list bool) : bool := forallb (fun b => b) l.

(** Truth value of a list. *)
Definition truthy {A} (l : list A) : bool :=
  match l with [] => false | _ => true end.

Fixpoint _get_node_in (ns : list Node)
    (node_id : option Z) (addr : option string) (prt : option Z) : option Node :=
  match ns with
  | [] => None
  | node :: rest =>
      let ml := match_list node node_id addr prt in
      if truthy ml && all ml then Some node
      else _get_node_in rest node_id addr prt
  end.

Definition _get_node (lb : LoadBalancer)
    (node_id : option Z) (addr : option string) (prt : option Z) : option Node :=
  _get_node_in (nodes lb) node_id addr prt.

(** ** Primary nodes *)

Definition _is_primary (node : Node) : bool :=
  bool_decide (PyStr.lower (type node) = "primary") &&
  bool_decide (PyStr.lower (condition node) = "enabled").

Definition _get_primary_nodes (lb : LoadBalancer) : list Node :=
  List.filter _is_primary (nodes lb).

(** ** Module parameters *)

(** [module.params] after the framework's type conversion: an option
    that was not given is [None]. *)
Record Params := mkParams {
  param_address : option string;
  param_condition : option string;
  param_load_balancer_id : Z;
  param_node_id : option Z;
  param_port : option Z;
  param_state : string;
  param_type : option string;
  param_virtualenv : option string;
  param_wait : bool;
  param_wait_timeout : option Z;
  param_weight : option Z;
}.

(** Truth value of an optional integer and of an optional string. *)
Definition truthy_int (x : option Z) : bool :=
  match x with Some n => negb (Z.eqb n 0) | None => false end.

Definition truthy_str (x : option string) : bool :=
  match x with Some s => negb (bool_decide (s = "")) | None => false end.

(** [x or 1] *)
Definition or_1 (x : option Z) : Z :=
  if truthy_int x then default 1 x else 1.

(** ** The SDK *)

(** Arguments of [pyrax.cloudloadbalancers.Node(...)] for a new node. *)
Record NewNode := mkNewNode {
  new_address : option string;
  new_port : option Z;
  new_condition : option string;
  new_weight : option Z;
  new_type : option string;
}.

Inductive DeleteResult :=
| Deleted
| NotFound
| DeleteFailed (message : string).

(** What the environment answers.  An [inl] or [Some] message stands
    for a raised exception with that message.  [new_node] is the
    constructor [pyrax.cloudloadbalancers.Node(...)] of line 257: it
    builds the object handed to [add_nodes] and may refuse its
    arguments; it calls nothing on the service. *)
Record Pyrax := mkPyrax {
  HAS_PYRAX : bool;
  activate_virtualenv : string -> option string;
  setup_rax_module : option string;
  cloud_loadbalancers : bool;
  get : Z -> string + LoadBalancer;
  delete_node : Node -> DeleteResult;
  new_node : NewNode -> string + NewNode;
  add_nodes : NewNode -> string + gmap string Value;
  update_node : Node -> gmap string Value -> option string;
  reload_status : nat -> string;
}.

(** Calls made to the SDK, in order.  [Reload] is one status poll made
    inside [wait_until]. *)
Inductive Call :=
| CallGet (load_balancer_id : Z)
| CallDeleteNode (node : Node)
| CallAddNodes (node : NewNode)
| CallUpdateNode (node : Node) (diff : gmap string Value)
| CallWaitUntil (interval attempts : Z)
| Reload (observed : string).

(** How the module ends: [module.exit_json] or [module.fail_json]. *)
Inductive Exit :=
| exit_json (changed : bool) (state : string) (node : option (gmap string Value))
| fail_json (msg : string).

(** ** A trace and exit monad *)

Definition M (A : Type) : Type := (list Call * (Exit + A))%type.

Definition ret {A} (a : A) : M A := ([], inr a).

Definition bind {A B} (m : M A) (k : A -> M B) : M B :=
  match m with
  | (t, inl e) => (t, inl e)
  | (t, inr a) => let '(t', r) := k a in (t ++ t', r)
  end.

Definition call (c : Call) : M unit := ([c], inr tt).

Definition exit {A} (e : Exit) : M A := ([], inl e).

Definition run (m : M Exit) : list Call * Exit :=
  match m with
  | (t, inl e) => (t, e)
  | (t, inr e) => (t, e)
  end.

Notation "'let*' x ':=' m 'in' k" := (bind m (fun x => k))
  (at level 10, x pattern, m at level 100, k at level 200).

(** ** Helpers from outside this repository *)

(** Modelled from the spec: [rax_clb_node_to_dict] of
    [ansible.module_utils.rax], which is imported and not part of this
    repository.  It gives the node's public attributes, and an empty
    dictionary when there is no node. *)
Definition rax_clb_node_to_dict (node : option Node) : gmap string Value :=
  match node with
  | None => ∅
  | Some n =>
      <["id" := VInt (id n)]> (<["address" := VStr (address n)]>
      (<["port" := VInt (port n)]> (<["condition" := VStr (condition n)]>
      (<["type" := VStr (type n)]> (<["weight" := of_int (weight n)]> ∅)))))
  end.

(** Modelled from the spec: [pyrax.utils.wait_until], the SDK's polling
    primitive.  It reloads the balancer and reads its status until the
    status is the desired one or [attempts] reloads were made, and
    leaves the last status read on the balancer.  [k] counts the reloads
    made so far, [cur] is the status the balancer object holds. *)
Fixpoint wait_loop (reload : nat -> string) (desired : string)
    (fuel k : nat) (cur : string) : M string :=
  match fuel with
  | O => ret cur
  | S fuel' =>
      let s := reload k in
      let* _ := call (Reload s) in
      if bool_decide (s = desired) then ret s
      else wait_loop reload desired fuel' (S k) s
  end.

Definition wait_until (reload : nat -> string) (cur desired : string)
    (interval attempts : Z) : M string :=
  let* _ := call (CallWaitUntil interval attempts) in
  wait_loop reload desired (Z.to_nat attempts) 0 cur.

(** ** The update loop over [mutable] *)

(** The test of line 272: [value is None or value == getattr(node, name)]. *)
Definition unchanged (node : Node) (name : string) (value : Value) : bool :=
  bool_decide (value = VNone) || bool_decide (value = getattr node name).

(** [for name, value in mutable.items(): if ...: mutable.pop(name)].
    [items()] is a copy, so the loop visits every entry of the original
    dictionary. *)
Definition pop_unchanged (node : Node) (mutable : gmap string Value)
    : gmap string Value :=
  map_fold
    (fun name value acc =>
       if unchanged node name value then delete name acc else acc)
    mutable mutable.

(** ** main *)

Definition fail {A} (msg : string) : M A := exit (fail_json msg).

(** Lines 191 to 224: the environment is set up and the balancer fetched. *)
Definition fetch (px : Pyrax) (p : Params) : M LoadBalancer :=
  let load_balancer_id := param_load_balancer_id p in
  let virtualenv := param_virtualenv p in
  let* _ := (if HAS_PYRAX px then ret tt
             else fail "pyrax is required for this module") in
  let* _ := (if truthy_str virtualenv then
               match activate_virtualenv px (default "" virtualenv) with
               | Some e =>
                   fail ("Failed to activate virtualenv " +:+
                         default "" virtualenv +:+ " (" +:+ e +:+ ")")
               | None => ret tt
               end
             else ret tt) in
  let* _ := (match setup_rax_module px with
             | Some msg => fail msg
             | None => ret tt
             end) in
  let* _ := (if cloud_loadbalancers px then ret tt
             else fail ("Failed to instantiate client. This " +:+
                        "typically indicates an invalid region or an " +:+
                        "incorrectly capitalized region name.")) in
  let* _ := call (CallGet load_balancer_id) in
  match get px load_balancer_id with
  | inl message => fail message
  | inr lb => ret lb
  end.

(** The values [main] reads from [module.params] (lines 194 to 205). *)
Definition condition_of (p : Params) : option string :=
  PyStr.and_upper (param_condition p).

Definition typ_of (p : Params) : option string :=
  PyStr.and_upper (param_type p).

Definition wait_timeout_of (p : Params) : Z := or_1 (param_wait_timeout p).

(** Line 226. *)
Definition found (p : Params) (lb : LoadBalancer) : option Node :=
  _get_node lb (param_node_id p) (param_address p) (param_port p).

(** The dictionary [mutable] of line 265, before the loop. *)
Definition mutable_of (p : Params) : gmap string Value :=
  <["condition" := of_str (condition_of p)]>
   (<["type" := of_str (typ_of p)]>
    (<["weight" := of_int (param_weight p)]> ∅)).

(** The arguments of the constructor at line 257. *)
Definition new_node_of (p : Params) : NewNode :=
  mkNewNode (param_address p) (param_port p) (condition_of p)
            (param_weight p) (typ_of p).

(** The message of lines 250 to 253. *)
Definition not_found_msg (node_id : Z) (lb : LoadBalancer) : string :=
  let msg := "Node " +:+ pretty node_id +:+ " not found" in
  if truthy (nodes lb) then
    msg +:+ " (available nodes: " +:+
    PyStr.join ", " (List.map (fun x => pretty (id x)) (nodes lb)) +:+ ")"
  else msg.

(** The message of lines 291 and 292. *)
Definition not_active_msg (wait_timeout : Z) (status : string) : string :=
  "Load balancer not active after " +:+ pretty wait_timeout +:+
  "s (current status: " +:+ PyStr.lower status +:+ ")".

(** Lines 226 to 284: the lookup and the one mutation.  The value
    returned is [result] as it stands at line 286; every other way out
    is an exit. *)
Definition mutate (px : Pyrax) (p : Params) (lb : LoadBalancer)
    : M (gmap string Value) :=
  let node_id := param_node_id p in
  let state := param_state p in
  let node := found p lb in
  let result := rax_clb_node_to_dict node in
  if bool_decide (state = "absent") then
    match node with
    | None => exit (exit_json false state None)
    | Some node =>
        let* _ :=
          (if _is_primary node &&
              (Nat.eqb (length (_get_primary_nodes lb)) 1)
           then fail "At least one primary node has to be enabled"
           else ret tt) in
        let* _ := call (CallDeleteNode node) in
        match delete_node px node with
        | Deleted => ret (∅ : gmap string Value)
        | NotFound => exit (exit_json false state None)
        | DeleteFailed message => fail message
        end
    end
  else
    match node with
    | None =>
        if truthy_int node_id then
          fail (not_found_msg (default 0 node_id) lb)
        else
          let* node :=
            (match new_node px (new_node_of p) with
             | inr node => ret node
             | inl message => fail message
             end) in
          let* _ := call (CallAddNodes node) in
          match add_nodes px node with
          | inr body => ret (body ∪ result)
          | inl message => fail message
          end
    | Some node =>
        let mutable := pop_unchanged node (mutable_of p) in
        let* _ :=
          (if bool_decide (mutable = ∅)
           then exit (exit_json false state (Some result))
           else ret tt) in
        let* _ := call (CallUpdateNode node mutable) in
        match update_node px node mutable with
        | None => ret (mutable ∪ result)
        | Some message => fail message
        end
    end.

(** Line 294. *)
Definition kwargs (result : gmap string Value) : option (gmap string Value) :=
  if bool_decide (result = ∅) then None else Some result.

(** Lines 286 to 295: the optional wait and the final report. *)
Definition report (px : Pyrax) (p : Params) (lb : LoadBalancer)
    (result : gmap string Value) : M Exit :=
  let state := param_state p in
  let wait_timeout := wait_timeout_of p in
  let* _ :=
    (if param_wait p then
       let* status := wait_until (reload_status px) (status lb) "ACTIVE"
                        1 wait_timeout in
       if negb (bool_decide (status = "ACTIVE")) then
         fail (not_active_msg wait_timeout status)
       else ret tt
     else ret tt) in
  ret (exit_json true state (kwargs result)).

Definition main (px : Pyrax) (p : Params) : list Call * Exit :=
  run (let* lb := fetch px p in
       let* result := mutate px p lb in
       report px p lb result).

Definition calls (r : list Call * Exit) : list Call := fst r.
Definition outcome (r : list Call * Exit) : Exit := snd r.

(** * Vocabulary of the properties *)

(** A node satisfies the criteria when every criterion that was given
    equals the node's attribute. *)
Definition satisfies (node_id : option Z) (addr : option string)
    (prt : option Z) (node : Node) : Prop :=
  (forall i, node_id = Some i -> id node = i) /\
  (forall a, addr = Some a -> address node = a) /\
  (forall q, prt = Some q -> port node = q).

Definition supplied (node_id : option Z) (addr : option string)
    (prt : option Z) : Prop :=
  node_id <> None \/ addr <> None \/ prt <> None.

(** The node already has every value that was asked for. *)
Definition already (p : Params) (n : Node) : Prop :=
  (forall c, condition_of p = Some c -> condition n = c) /\
  (forall ty, typ_of p = Some ty -> type n = ty) /\
  (forall w, param_weight p = Some w -> weight n = Some w).

(** What the balancer is taken to do with an [update_node] that
    succeeds: the node takes the values of the diff and keeps its
    place in the list. *)
Definition apply_diff (n : Node) (diff : gmap string Value) : Node :=
  {| id := id n;
     address := address n;
     port := port n;
     condition := match diff !! "condition" with
                  | Some (VStr c) => c | _ => condition n end;
     type := match diff !! "type" with
             | Some (VStr ty) => ty | _ => type n end;
     weight := match diff !! "weight" with
               | Some (VInt w) => Some w | _ => weight n end |}.

Fixpoint replace_first (n n' : Node) (ns : list Node) : list Node :=
  match ns with
  | [] => []
  | m :: rest =>
      if decide (m = n) then n' :: rest else m :: replace_first n n' rest
  end.

(** Kinds of calls in a trace. *)
Definition is_wait (c : Call) : Prop :=
  match c with
  | CallWaitUntil _ _ | Reload _ => True
  | _ => False
  end.

Definition is_reload (c : Call) : bool :=
  match c with Reload _ => true | _ => false end.

(** Number of status polls in a trace. *)
Definition polls (t : list Call) : nat := length (List.filter is_reload t).

(** The statuses read by the first [n] reloads after the [k]-th. *)
Definition reloads (reload : nat -> string) (k n : nat) : list Call :=
  List.map (fun i => Reload (reload i)) (seq k n).

Definition is_mutation (c : Call) : Prop :=
  match c with
  | CallDeleteNode _ | CallAddNodes _ | CallUpdateNode _ _ => True
  | _ => False
  end.

(** The successful ways out of [main], each with the changed flag and
    the [node] entry it reports. *)
Inductive Reported (px : Pyrax) (p : Params) (lb : LoadBalancer)
    : bool -> option (gmap string Value) -> Prop :=
| NO_OP_without_match :
    param_state p = "absent" ->
    found p lb = None ->
    Reported px p lb false None
| NOT_FOUND_ON_DELETE n :
    param_state p = "absent" ->
    found p lb = Some n ->
    delete_node px n = NotFound ->
    Reported px p lb false None
| NO_OP_with_match n :
    param_state p <> "absent" ->
    found p lb = Some n ->
    pop_unchanged n (mutable_of p) = ∅ ->
    Reported px p lb false (Some (rax_clb_node_to_dict (Some n)))
| DELETE n :
    param_state p = "absent" ->
    found p lb = Some n ->
    delete_node px n = Deleted ->
    Reported px p lb true (kwargs ∅)
| CREATE node body :
    param_state p <> "absent" ->
    found p lb = None ->
    new_node px (new_node_of p) = inr node ->
    add_nodes px node = inr body ->
    Reported px p lb true (kwargs body)
| UPDATE n :
    param_state p <> "absent" ->
    found p lb = Some n ->
    pop_unchanged n (mutable_of p) <> ∅ ->
    update_node px n (pop_unchanged n (mutable_of p)) = None ->
    Reported px p lb true
      (kwargs (pop_unchanged n (mutable_of p) ∪ rax_clb_node_to_dict (Some n))).

(** ** Runs *)

(** The prelude succeeded: the balancer was fetched with one [get]. *)
Definition fetched (px : Pyrax) (p : Params) (lb : LoadBalancer) : Prop :=
  fetch px p = ([CallGet (param_load_balancer_id p)], inr lb).

(** The guard of line 236. *)
Definition is_last_primary (lb : LoadBalancer) (n : Node) : bool :=
  _is_primary n && Nat.eqb (length (_get_primary_nodes lb)) 1.

(** The message of the exception an SDK call raised, if it raised one.
    [NotFound] on delete is caught apart and is not counted here. *)
Definition raised (px : Pyrax) (c : Call) : option string :=
  match c with
  | CallGet i => match get px i with inl m => Some m | inr _ => None end
  | CallDeleteNode n =>
      match delete_node px n with DeleteFailed m => Some m | _ => None end
  | CallAddNodes a =>
      match add_nodes px a with inl m => Some m | inr _ => None end
  | CallUpdateNode n d => update_node px n d
  | CallWaitUntil _ _ | Reload _ => None
  end.

(** The paths through [main]: the calls made and the way out, with the
    conditions under which each path is taken. *)
Inductive Run (px : Pyrax) (p : Params) : list Call * Exit -> Prop :=
| run_prelude_failed msg :
    fetch px p = ([], inl (fail_json msg)) ->
    Run px p ([], fail_json msg)
| run_get_failed msg :
    get px (param_load_balancer_id p) = inl msg ->
    Run px p ([CallGet (param_load_balancer_id p)], fail_json msg)
| run_absent_missing lb :
    fetched px p lb ->
    param_state p = "absent" -> found p lb = None ->
    Run px p ([CallGet (param_load_balancer_id p)],
              exit_json false (param_state p) None)
| run_last_primary lb n :
    fetched px p lb ->
    param_state p = "absent" -> found p lb = Some n ->
    is_last_primary lb n = true ->
    Run px p ([CallGet (param_load_balancer_id p)],
              fail_json "At least one primary node has to be enabled")
| run_delete_not_found lb n :
    fetched px p lb ->
    param_state p = "absent" -> found p lb = Some n ->
    is_last_primary lb n = false ->
    delete_node px n = NotFound ->
    Run px p ([CallGet (param_load_balancer_id p); CallDeleteNode n],
              exit_json false (param_state p) None)
| run_delete_failed lb n msg :
    fetched px p lb ->
    param_state p = "absent" -> found p lb = Some n ->
    is_last_primary lb n = false ->
    delete_node px n = DeleteFailed msg ->
    Run px p ([CallGet (param_load_balancer_id p); CallDeleteNode n],
              fail_json msg)
| run_deleted lb n w e :
    fetched px p lb ->
    param_state p = "absent" -> found p lb = Some n ->
    is_last_primary lb n = false ->
    delete_node px n = Deleted ->
    run (report px p lb ∅) = (w, e) ->
    Run px p (CallGet (param_load_balancer_id p) :: CallDeleteNode n :: w, e)
| run_node_missing lb :
    fetched px p lb ->
    param_state p <> "absent" -> found p lb = None ->
    truthy_int (param_node_id p) = true ->
    Run px p ([CallGet (param_load_balancer_id p)],
              fail_json (not_found_msg (default 0 (param_node_id p)) lb))
| run_node_refused lb msg :
    fetched px p lb ->
    param_state p <> "absent" -> found p lb = None ->
    truthy_int (param_node_id p) = false ->
    new_node px (new_node_of p) = inl msg ->
    Run px p ([CallGet (param_load_balancer_id p)], fail_json msg)
| run_add_failed lb node msg :
    fetched px p lb ->
    param_state p <> "absent" -> found p lb = None ->
    truthy_int (param_node_id p) = false ->
    new_node px (new_node_of p) = inr node ->
    add_nodes px node = inl msg ->
    Run px p ([CallGet (param_load_balancer_id p); CallAddNodes node],
              fail_json msg)
| run_created lb node body w e :
    fetched px p lb ->
    param_state p <> "absent" -> found p lb = None ->
    truthy_int (param_node_id p) = false ->
    new_node px (new_node_of p) = inr node ->
    add_nodes px node = inr body ->
    run (report px p lb body) = (w, e) ->
    Run px p (CallGet (param_load_balancer_id p) :: CallAddNodes node :: w, e)
| run_no_op lb n :
    fetched px p lb ->
    param_state p <> "absent" -> found p lb = Some n ->
    pop_unchanged n (mutable_of p) = ∅ ->
    Run px p ([CallGet (param_load_balancer_id p)],
              exit_json false (param_state p)
                (Some (rax_clb_node_to_dict (Some n))))
| run_update_failed lb n msg :
    fetched px p lb ->
    param_state p <> "absent" -> found p lb = Some n ->
    pop_unchanged n (mutable_of p) <> ∅ ->
    update_node px n (pop_unchanged n (mutable_of p)) = Some msg ->
    Run px p ([CallGet (param_load_balancer_id p);
               CallUpdateNode n (pop_unchanged n (mutable_of p))],
              fail_json msg)
| run_updated lb n w e :
    fetched px p lb ->
    param_state p <> "absent" -> found p lb = Some n ->
    pop_unchanged n (mutable_of p) <> ∅ ->
    update_node px n (pop_unchanged n (mutable_of p)) = None ->
    run (report px p lb (pop_unchanged n (mutable_of p) ∪
                         rax_clb_node_to_dict (Some n))) = (w, e) ->
    Run px p (CallGet (param_load_balancer_id p) ::
              CallUpdateNode n (pop_unchanged n (mutable_of p)) :: w, e).

(** What the balancer is taken to do with a [delete_node] that
    succeeds: the node leaves the list. *)
Fixpoint remove_first (n : Node) (ns : list Node) : list Node :=
  match ns with
  | [] => []
  | m :: rest => if decide (m = n) then rest else m :: remove_first n rest
  end.

(** The second set of criteria asks for everything the first asks for. *)
Definition narrows {A} (x y : option A) : Prop := x = None \/ x = y.

(** A node with the letter case of its type and condition changed. *)
Definition recased (f g : string -> string) (n : Node) : Node :=
  {| id := id n; address := address n; port := port n;
     condition := g (condition n); type := f (type n); weight := weight n |}.

(** * Sample balancer and requests *)

Module Sample.

Definition n1 := mkNode 1 "10.2.2.3" 80 "ENABLED" "PRIMARY" (Some 1).
Definition n2 := mkNode 2 "10.2.2.4" 80 "ENABLED" "SECONDARY" None.
Definition lb := mkLB 71 "ACTIVE" [n1; n2].

(** A constructor that asks for an address and a port, as the balancer
    needs both to create a node, and takes the rest as given. *)
Definition accept (a : NewNode) : string + NewNode :=
  if truthy_str (new_address a) && truthy_int (new_port a) then inr a
  else inl "You must include an address and a port when creating a node.".

Definition px (reload : nat -> string) := {|
  HAS_PYRAX := true;
  activate_virtualenv := fun _ => None;
  setup_rax_module := None;
  cloud_loadbalancers := true;
  get := fun _ => inr lb;
  delete_node := fun _ => Deleted;
  new_node := accept;
  add_nodes := fun n => inr (<["id" := VInt 3]> (<["address" := of_str (new_address n)]> ∅));
  update_node := fun _ _ => None;
  reload_status := reload;
|}.

End Sample.

Module Requests.

Definition blank := {|
  param_address := None;
  param_condition := None;
  param_load_balancer_id := 71;
  param_node_id := None;
  param_port := None;
  param_state := "present";
  param_type := None;
  param_virtualenv := None;
  param_wait := false;
  param_wait_timeout := Some 30;
  param_weight := None;
|}.

(** state=absent, node_id=1: the only enabled primary node. *)
Definition remove_primary := {|
  param_address := None;
  param_condition := None;
  param_load_balancer_id := 71;
  param_node_id := Some 1;
  param_port := None;
  param_state := "absent";
  param_type := None;
  param_virtualenv := None;
  param_wait := false;
  param_wait_timeout := Some 30;
  param_weight := None;
|}.

(** state=absent, node_id=2: the secondary node; [wait] as given. *)
Definition remove_secondary (wait : bool) (wait_timeout : option Z) := {|
  param_address := None;
  param_condition := None;
  param_load_balancer_id := 71;
  param_node_id := Some 2;
  param_port := None;
  param_state := "absent";
  param_type := None;
  param_virtualenv := None;
  param_wait := wait;
  param_wait_timeout := wait_timeout;
  param_weight := None;
|}.

(** state=absent (or present), node_id as given, nothing else. *)
Definition by_id (state : string) (node_id : Z) := {|
  param_address := None;
  param_condition := None;
  param_load_balancer_id := 71;
  param_node_id := Some node_id;
  param_port := None;
  param_state := state;
  param_type := None;
  param_virtualenv := None;
  param_wait := false;
  param_wait_timeout := Some 30;
  param_weight := None;
|}.

(** state=present, address and port of node 1, condition as given. *)
Definition set_condition (condition : string) := {|
  param_address := Some "10.2.2.3";
  param_condition := Some condition;
  param_load_balancer_id := 71;
  param_node_id := None;
  param_port := Some 80;
  param_state := "present";
  param_type := None;
  param_virtualenv := None;
  param_wait := false;
  param_wait_timeout := Some 30;
  param_weight := None;
|}.

(** state=present, node_id=0 with the address and port of a new node. *)
Definition id_zero := {|
  param_address := Some "10.2.2.5";
  param_condition := None;
  param_load_balancer_id := 71;
  param_node_id := Some 0;
  param_port := Some 80;
  param_state := "present";
  param_type := None;
  param_virtualenv := None;
  param_wait := false;
  param_wait_timeout := Some 30;
  param_weight := None;
|}.

(** state=present, a new node with every attribute given. *)
Definition add_secondary := {|
  param_address := Some "10.2.2.6";
  param_condition := Some "draining";
  param_load_balancer_id := 71;
  param_node_id := None;
  param_port := Some 8080;
  param_state := "present";
  param_type := Some "secondary";
  param_virtualenv := None;
  param_wait := false;
  param_wait_timeout := Some 30;
  param_weight := Some 10;
|}.

(** A balancer that stays in BUILD. *)
Definition building : nat -> string := fun _ => "BUILD".

End Requests.

(** Environments whose SDK answers are given one by one. *)
Module Answers.

Definition px (fetched : string + LoadBalancer) (deleted : DeleteResult)
    (added : string + gmap string Value) (updated : option string)
    (reload : nat -> string) := {|
  HAS_PYRAX := true;
  activate_virtualenv := fun _ => None;
  setup_rax_module := None;
  cloud_loadbalancers := true;
  get := fun _ => fetched;
  delete_node := fun _ => deleted;
  new_node := Sample.accept;
  add_nodes := fun _ => added;
  update_node := fun _ _ => updated;
  reload_status := reload;
|}.

(** No pyrax on the machine. *)
Definition no_pyrax := {|
  HAS_PYRAX := false;
  activate_virtualenv := fun _ => None;
  setup_rax_module := None;
  cloud_loadbalancers := true;
  get := fun _ => inr Sample.lb;
  delete_node := fun _ => Deleted;
  new_node := Sample.accept;
  add_nodes := fun _ => inl "unused";
  update_node := fun _ _ => None;
  reload_status := fun _ => "ACTIVE";
|}.

(** BUILD twice, then ACTIVE. *)
Definition settles (k : nat) : string :=
  match k with O | S O => "BUILD" | _ => "ACTIVE" end.

(** A balancer with two enabled primary nodes. *)
Definition n3 := mkNode 3 "10.2.2.5" 80 "enabled" "primary" None.
Definition two_primaries := mkLB 71 "ACTIVE" [Sample.n1; Sample.n2; n3].

End Answers.

(** * Properties *)

(** ** Lookup *)

Lemma all_match_list node node_id addr prt :
  all (match_list node node_id addr prt) = true <->
  satisfies node_id addr prt node.
Proof.
  unfold all, match_list, satisfies.
  rewrite !forallb_app, !andb_true_iff.
  assert (Hid : forallb (fun b : bool => b)
            match node_id with
            | Some i => [bool_decide (id node = i)] | None => [] end = true <->
          (forall i, node_id = Some i -> id node = i)).
  { destruct node_id as [i|]; simpl; [|split; [discriminate|reflexivity]].
    rewrite andb_true_r, bool_decide_eq_true.
    split; [intros <- j [= <-]; reflexivity | intros H; apply H; reflexivity]. }
  assert (Had : forallb (fun b : bool => b)
            match addr with
            | Some a => [bool_decide (address node = a)] | None => [] end = true <->
          (forall a, addr = Some a -> address node = a)).
  { destruct addr as [a|]; simpl; [|split; [discriminate|reflexivity]].
    rewrite andb_true_r, bool_decide_eq_true.
    split; [intros <- j [= <-]; reflexivity | intros H; apply H; reflexivity]. }
  assert (Hpt : forallb (fun b : bool => b)
            match prt with
            | Some q => [bool_decide (port node = q)] | None => [] end = true <->
          (forall q, prt = Some q -> port node = q)).
  { destruct prt as [q|]; simpl; [|split; [discriminate|reflexivity]].
    rewrite andb_true_r, bool_decide_eq_true.
    split; [intros <- j [= <-]; reflexivity | intros H; apply H; reflexivity]. }
  rewrite Hid, Had, Hpt. reflexivity.
Qed.

Lemma truthy_match_list node node_id addr prt :
  truthy (match_list node node_id addr prt) = true <->
  supplied node_id addr prt.
Proof.
  unfold match_list, supplied.
  destruct node_id, addr, prt; simpl; split; intros H;
    try reflexivity; try discriminate H;
    try (left; discriminate); try (right; left; discriminate);
    try (right; right; discriminate).
  destruct H as [H | [H | H]]; congruence.
Qed.

Lemma get_node_in_none_supplied ns :
  _get_node_in ns None None None = None.
Proof. induction ns as [|n ns IH]; simpl; [reflexivity | exact IH]. Qed.

Lemma get_node_in_spec ns node_id addr prt :
  supplied node_id addr prt ->
  match _get_node_in ns node_id addr prt with
  | Some n =>
      exists before after,
        ns = before ++ n :: after /\
        satisfies node_id addr prt n /\
        Forall (fun m => ~ satisfies node_id addr prt m) before
  | None => Forall (fun m => ~ satisfies node_id addr prt m) ns
  end.
Proof.
  intros Hs. induction ns as [|n ns IH]; simpl.
  - constructor.
  - destruct (truthy (match_list n node_id addr prt)) eqn:Ht; simpl.
    2:{ apply (truthy_match_list n) in Hs. congruence. }
    destruct (all (match_list n node_id addr prt)) eqn:Ha.
    + exists [], ns. repeat split; try (apply all_match_list in Ha; apply Ha).
      constructor.
    + assert (Hn : ~ satisfies node_id addr prt n).
      { intros Hsat. apply all_match_list in Hsat. congruence. }
      destruct (_get_node_in ns node_id addr prt) as [m|].
      * destruct IH as (before & after & -> & Hm & Hb).
        exists (n :: before), after. repeat split; try apply Hm.
        constructor; assumption.
      * constructor; assumption.
Qed.

Lemma get_node_in_first ns before n after node_id addr prt :
  supplied node_id addr prt ->
  ns = before ++ n :: after ->
  satisfies node_id addr prt n ->
  Forall (fun m => ~ satisfies node_id addr prt m) before ->
  _get_node_in ns node_id addr prt = Some n.
Proof.
  intros Hs -> Hn Hb. induction Hb as [|m before Hm Hb IH]; simpl.
  - rewrite (proj2 (truthy_match_list n _ _ _) Hs).
    rewrite (proj2 (all_match_list n _ _ _) Hn). reflexivity.
  - destruct (all (match_list m node_id addr prt)) eqn:Ha.
    + apply all_match_list in Ha. destruct (Hm Ha).
    + rewrite andb_false_r. exact IH.
Qed.

(** ** The update loop *)

Lemma lookup_pop_unchanged node (m : gmap string Value) name :
  pop_unchanged node m !! name =
  match m !! name with
  | Some v => if unchanged node name v then None else Some v
  | None => None
  end.
Proof.
  unfold pop_unchanged.
  enough (G : forall acc : gmap string Value,
    map_fold
      (fun name value acc =>
         if unchanged node name value then delete name acc else acc)
      acc m !! name =
    match m !! name with
    | Some v => if unchanged node name v then None else acc !! name
    | None => acc !! name
    end).
  { rewrite G. destruct (m !! name) eqn:E; [|reflexivity].
    destruct (unchanged node name v); reflexivity. }
  intros acc.
  apply (map_fold_weak_ind (fun r (m' : gmap string Value) =>
    r !! name = match m' !! name with
                | Some v => if unchanged node name v then None else acc !! name
                | None => acc !! name
                end)).
  - rewrite lookup_empty. reflexivity.
  - intros i x m' r Hi IH.
    destruct (decide (i = name)) as [->|Hne].
    + rewrite lookup_insert_eq. rewrite Hi in IH.
      destruct (unchanged node name x).
      * apply lookup_delete_eq.
      * exact IH.
    + rewrite lookup_insert_ne by exact Hne.
      destruct (unchanged node i x).
      * rewrite lookup_delete_ne by exact Hne. exact IH.
      * exact IH.
Qed.

(** ** From [main] to its phases *)

Lemma main_exit px p t lb tm e :
  fetch px p = (t, inr lb) ->
  mutate px p lb = (tm, inl e) ->
  main px p = (t ++ tm, e).
Proof.
  intros Hf Hm. unfold main, bind. rewrite Hf, Hm. reflexivity.
Qed.

Lemma main_result px p t lb tm result :
  fetch px p = (t, inr lb) ->
  mutate px p lb = (tm, inr result) ->
  main px p = (t ++ tm ++ calls (run (report px p lb result)),
               outcome (run (report px p lb result))).
Proof.
  intros Hf Hm. unfold main, bind. rewrite Hf, Hm.
  destruct (report px p lb result) as [tr [e|e]]; reflexivity.
Qed.

(** A fetch that succeeds made exactly the [get] call. *)
Lemma fetch_calls px p t lb :
  fetch px p = (t, inr lb) ->
  t = [CallGet (param_load_balancer_id p)] /\
  get px (param_load_balancer_id p) = inr lb.
Proof.
  unfold fetch, bind, fail, exit, ret, call.
  destruct (HAS_PYRAX px); [|discriminate].
  destruct (truthy_str (param_virtualenv p));
    [destruct (activate_virtualenv px _); [discriminate|]|];
    (destruct (setup_rax_module px); [discriminate|]);
    (destruct (cloud_loadbalancers px); [|discriminate]);
    (destruct (get px (param_load_balancer_id p)); [discriminate|]);
    simpl; intros [= <- <-]; split; reflexivity.
Qed.

(** ** The branches of [mutate] *)

Lemma mutate_absent_missing px p lb :
  param_state p = "absent" ->
  found p lb = None ->
  mutate px p lb = ([], inl (exit_json false "absent" None)).
Proof. intros Hs Hn. unfold mutate. rewrite Hs, Hn. reflexivity. Qed.

Lemma mutate_absent_found px p lb n :
  param_state p = "absent" ->
  found p lb = Some n ->
  mutate px p lb =
  if _is_primary n && Nat.eqb (length (_get_primary_nodes lb)) 1
  then ([], inl (fail_json "At least one primary node has to be enabled"))
  else match delete_node px n with
       | Deleted => ([CallDeleteNode n], inr ∅)
       | NotFound => ([CallDeleteNode n], inl (exit_json false "absent" None))
       | DeleteFailed message => ([CallDeleteNode n], inl (fail_json message))
       end.
Proof.
  intros Hs Hn. unfold mutate. rewrite Hs, Hn.
  change (bool_decide ("absent" = "absent")) with true. cbv iota.
  destruct (_is_primary n && Nat.eqb (length (_get_primary_nodes lb)) 1);
    [reflexivity|].
  unfold bind, call, ret, fail, exit.
  destruct (delete_node px n); reflexivity.
Qed.

Lemma mutate_present_missing px p lb :
  param_state p <> "absent" ->
  found p lb = None ->
  mutate px p lb =
  if truthy_int (param_node_id p)
  then ([], inl (fail_json (not_found_msg (default 0 (param_node_id p)) lb)))
  else match new_node px (new_node_of p) with
       | inl message => ([], inl (fail_json message))
       | inr node =>
           match add_nodes px node with
           | inr body => ([CallAddNodes node], inr body)
           | inl message => ([CallAddNodes node], inl (fail_json message))
           end
       end.
Proof.
  intros Hs Hn. unfold mutate. rewrite Hn.
  rewrite (bool_decide_eq_false_2 _ Hs).
  destruct (truthy_int (param_node_id p)); [reflexivity|].
  unfold bind, call, ret, fail, exit, rax_clb_node_to_dict.
  destruct (new_node px (new_node_of p)) as [message|node]; [reflexivity|].
  destruct (add_nodes px node) as [message|body]; [reflexivity|].
  rewrite (right_id_L ∅ (∪) body). reflexivity.
Qed.

Lemma mutate_present_found px p lb n :
  param_state p <> "absent" ->
  found p lb = Some n ->
  mutate px p lb =
  let diff := pop_unchanged n (mutable_of p) in
  if bool_decide (diff = ∅)
  then ([], inl (exit_json false (param_state p)
                   (Some (rax_clb_node_to_dict (Some n)))))
  else match update_node px n diff with
       | None => ([CallUpdateNode n diff],
                  inr (diff ∪ rax_clb_node_to_dict (Some n)))
       | Some message => ([CallUpdateNode n diff], inl (fail_json message))
       end.
Proof.
  intros Hs Hn. unfold mutate. rewrite Hn.
  rewrite (bool_decide_eq_false_2 _ Hs). cbv zeta.
  destruct (bool_decide (pop_unchanged n (mutable_of p) = ∅)); [reflexivity|].
  unfold bind, call, ret, fail, exit.
  destruct (update_node px n (pop_unchanged n (mutable_of p))); reflexivity.
Qed.

Lemma present_not_absent p : param_state p = "present" -> param_state p <> "absent".
Proof. intros ->. discriminate. Qed.

(** ** The wait *)

Lemma last_cons_default {A} (a d : A) (l : list A) :
  List.last (a :: l) d = List.last l a.
Proof.
  revert a d. induction l as [|b l IH]; intros a d; [reflexivity|].
  change (List.last (a :: b :: l) d) with (List.last (b :: l) d).
  rewrite (IH b d), (IH b a). reflexivity.
Qed.

Section WaitLoop.

Variable reload : nat -> string.
Variable desired : string.

(** The loop always comes back, after at most [fuel] polls, and polls
    at least once when it has fuel. *)
Lemma wait_loop_total fuel : forall k cur,
  exists tr s,
    wait_loop reload desired fuel k cur = (tr, inr s) /\
    Forall is_wait tr /\
    (polls tr <= fuel)%nat /\
    (fuel <> O -> exists rest, tr = Reload (reload k) :: rest).
Proof.
  induction fuel as [|fuel IH]; intros k cur; simpl.
  - exists [], cur. repeat split; [constructor | reflexivity | congruence].
  - unfold bind, call.
    destruct (bool_decide (reload k = desired)).
    + exists [Reload (reload k)], (reload k). simpl.
      repeat split; [repeat constructor | unfold polls; simpl; lia | eauto].
    + destruct (IH (S k) (reload k)) as (tr & s & -> & Hw & Hp & _).
      exists (Reload (reload k) :: tr), s. simpl.
      repeat split; [constructor; [exact I | exact Hw] | | eauto].
      unfold polls in *. simpl. lia.
Qed.

(** When no poll reads the desired status the loop uses all its fuel. *)
Lemma wait_loop_never fuel : forall k cur,
  (forall i, (k <= i < k + fuel)%nat -> reload i <> desired) ->
  wait_loop reload desired fuel k cur =
  (reloads reload k fuel,
   inr (List.last (List.map reload (seq k fuel)) cur)).
Proof.
  induction fuel as [|fuel IH]; intros k cur Hne.
  - reflexivity.
  - cbn [wait_loop]. unfold bind, call.
    rewrite bool_decide_eq_false_2 by (apply Hne; lia).
    rewrite (IH (S k) (reload k)) by (intros i Hi; apply Hne; lia).
    unfold reloads. cbn [seq List.map app].
    rewrite last_cons_default. reflexivity.
Qed.

Lemma polls_reloads k n : polls (reloads reload k n) = n.
Proof.
  unfold polls, reloads. revert k.
  induction n as [|n IH]; intros k; simpl; [reflexivity|].
  f_equal. apply IH.
Qed.

End WaitLoop.

Lemma report_no_wait px p lb result :
  param_wait p = false ->
  report px p lb result =
  ([], inr (exit_json true (param_state p) (kwargs result))).
Proof. intros Hw. unfold report. rewrite Hw. reflexivity. Qed.

Lemma report_wait px p lb result :
  param_wait p = true ->
  exists tr s,
    run (report px p lb result) =
      (CallWaitUntil 1 (wait_timeout_of p) :: tr,
       if bool_decide (s = "ACTIVE")
       then exit_json true (param_state p) (kwargs result)
       else fail_json (not_active_msg (wait_timeout_of p) s)) /\
    Forall is_wait tr /\
    (polls tr <= Z.to_nat (wait_timeout_of p))%nat /\
    (0 < wait_timeout_of p -> exists rest,
        tr = Reload (reload_status px 0) :: rest).
Proof.
  intros Hw. unfold report, wait_until. rewrite Hw.
  destruct (wait_loop_total (reload_status px) "ACTIVE"
              (Z.to_nat (wait_timeout_of p)) 0%nat (status lb))
    as (tr & s & Hl & Hf & Hp & Hr).
  unfold bind at 3. unfold call at 1. rewrite Hl.
  unfold bind, ret, fail, exit. exists tr, s.
  destruct (bool_decide (s = "ACTIVE")); simpl;
    rewrite ?app_nil_r; (split; [reflexivity|]);
    (repeat split; [exact Hf | exact Hp | intros Hpos; apply Hr; lia]).
Qed.

Lemma report_outcome px p lb result :
  outcome (run (report px p lb result)) =
    exit_json true (param_state p) (kwargs result) \/
  exists s, outcome (run (report px p lb result)) =
              fail_json (not_active_msg (wait_timeout_of p) s).
Proof.
  destruct (param_wait p) eqn:Hw.
  - destruct (report_wait px p lb result Hw) as (tr & s & -> & _).
    destruct (bool_decide (s = "ACTIVE")); [left; reflexivity|].
    right. exists s. reflexivity.
  - rewrite report_no_wait by exact Hw. left. reflexivity.
Qed.

Lemma report_wait_never px p lb result :
  param_wait p = true ->
  (forall i, (i < Z.to_nat (wait_timeout_of p))%nat ->
             reload_status px i <> "ACTIVE") ->
  (wait_timeout_of p <= 0 -> status lb <> "ACTIVE") ->
  run (report px p lb result) =
  (CallWaitUntil 1 (wait_timeout_of p) ::
     reloads (reload_status px) 0 (Z.to_nat (wait_timeout_of p)),
   fail_json (not_active_msg (wait_timeout_of p)
     (List.last (List.map (reload_status px)
                   (seq 0 (Z.to_nat (wait_timeout_of p)))) (status lb)))).
Proof.
  intros Hw Hne H0. unfold report, wait_until. rewrite Hw.
  rewrite wait_loop_never by (intros i Hi; apply Hne; lia).
  set (n := Z.to_nat (wait_timeout_of p)) in *.
  assert (Hlast : List.last (List.map (reload_status px) (seq 0 n)) (status lb)
                  <> "ACTIVE").
  { destruct n as [|n'] eqn:En.
    - simpl. apply H0. lia.
    - rewrite seq_S, List.map_app. cbn [List.map].
      rewrite List.last_last. apply Hne. lia. }
  unfold bind, call, ret, fail, exit.
  rewrite (bool_decide_eq_false_2 _ Hlast). simpl.
  rewrite app_nil_r. reflexivity.
Qed.

Lemma report_calls px p lb result :
  Forall is_wait (calls (run (report px p lb result))).
Proof.
  destruct (param_wait p) eqn:Hw.
  - destruct (report_wait px p lb result Hw) as (tr & s & -> & Hf & _).
    constructor; [exact I | exact Hf].
  - rewrite report_no_wait by exact Hw. constructor.
Qed.

Lemma not_wait_in_report px p lb result c :
  ~ is_wait c -> ~ In c (calls (run (report px p lb result))).
Proof.
  intros Hc Hin. apply Hc.
  exact (proj1 (List.Forall_forall _ _) (report_calls px p lb result) c Hin).
Qed.

(** ** The last enabled primary node *)

(** C1: when the balancer has exactly one node that is primary and
    enabled and a state=absent request resolves to that node, the
    module fails, saying that at least one primary node has to stay
    enabled (the text of line 238 is "At least one primary node has to
    be enabled"), and no [delete_node] call is made. *)
Theorem last_primary_is_kept px p t lb n :
  fetch px p = (t, inr lb) ->
  param_state p = "absent" ->
  length (_get_primary_nodes lb) = 1%nat ->
  found p lb = Some n ->
  _is_primary n = true ->
  outcome (main px p) =
    fail_json "At least one primary node has to be enabled" /\
  forall m, ~ In (CallDeleteNode m) (calls (main px p)).
Proof.
  intros Hf Hs H1 Hn Hp.
  assert (Hm := mutate_absent_found px p lb n Hs Hn).
  rewrite Hp, H1 in Hm. simpl in Hm.
  rewrite (main_exit _ _ _ _ _ _ Hf Hm), app_nil_r.
  split; [reflexivity|].
  destruct (fetch_calls _ _ _ _ Hf) as [-> _].
  intros m [Hc | []]. discriminate Hc.
Qed.

Lemma last_primary_is_kept_witness :
  outcome (main (Sample.px Requests.building) Requests.remove_primary) =
    fail_json "At least one primary node has to be enabled" /\
  forall m, ~ In (CallDeleteNode m)
                 (calls (main (Sample.px Requests.building)
                              Requests.remove_primary)).
Proof.
  apply (last_primary_is_kept (Sample.px Requests.building)
           Requests.remove_primary [CallGet 71] Sample.lb Sample.n1);
    reflexivity.
Defined.

(** The scenario of the documentation: node 1 is the only enabled
    primary node and is asked to go. *)
Example remove_last_primary :
  main (Sample.px Requests.building) Requests.remove_primary =
  ([CallGet 71], fail_json "At least one primary node has to be enabled").
Proof. reflexivity. Qed.

(** ** First match *)

(** C3: when at least one criterion is given, [_get_node] returns a
    node exactly when it is the first node of the collection that
    matches every criterion given, and returns nothing exactly when no
    node matches them all. *)
Theorem get_node_first_match lb node_id addr prt :
  supplied node_id addr prt ->
  (forall n,
     _get_node lb node_id addr prt = Some n <->
     exists before after,
       nodes lb = before ++ n :: after /\
       satisfies node_id addr prt n /\
       Forall (fun m => ~ satisfies node_id addr prt m) before) /\
  (_get_node lb node_id addr prt = None <->
   Forall (fun m => ~ satisfies node_id addr prt m) (nodes lb)).
Proof.
  intros Hs. unfold _get_node.
  assert (Hspec := get_node_in_spec (nodes lb) node_id addr prt Hs).
  split; [intros n|]; split.
  - intros E. rewrite E in Hspec. exact Hspec.
  - intros (before & after & Hl & Hn & Hb).
    apply (get_node_in_first _ before n after); assumption.
  - intros E. rewrite E in Hspec. exact Hspec.
  - intros Hall.
    destruct (_get_node_in (nodes lb) node_id addr prt) as [n|];
      [|reflexivity].
    destruct Hspec as (before & after & Hl & Hn & _).
    rewrite Hl in Hall. apply List.Forall_app in Hall as [_ Hall].
    inversion Hall as [|? ? Hx _]. destruct (Hx Hn).
Qed.

Lemma get_node_first_match_witness :
  supplied None None (Some 80) /\
  _get_node Sample.lb None None (Some 80) = Some Sample.n1 /\
  exists before after,
    nodes Sample.lb = before ++ Sample.n1 :: after /\
    satisfies None None (Some 80) Sample.n1 /\
    Forall (fun m => ~ satisfies None None (Some 80) m) before.
Proof.
  assert (Hs : supplied None None (Some 80)) by (right; right; discriminate).
  split; [exact Hs|]. split; [reflexivity|].
  apply (proj1 (get_node_first_match Sample.lb None None (Some 80) Hs)).
  reflexivity.
Defined.

(** ** A request without criteria *)

(** C9: with node_id, address and port all absent the lookup returns
    nothing on every balancer, and a state=present request of that kind
    goes to the creation of lines 255 to 263: the node constructor is
    given the request's values (no address, no port); if it refuses
    them the run fails with its message after the fetch alone, and
    otherwise the first call after the fetch is [add_nodes] with the
    node it built.  No [update_node] call is made and the module never
    reports an unchanged node. *)
Theorem no_criteria_creates px p t lb :
  fetch px p = (t, inr lb) ->
  param_state p = "present" ->
  param_node_id p = None ->
  param_address p = None ->
  param_port p = None ->
  (forall lb', _get_node lb' None None None = None) /\
  match new_node px (mkNewNode None None
                       (PyStr.and_upper (param_condition p)) (param_weight p)
                       (PyStr.and_upper (param_type p))) with
  | inl msg => main px p = (t, fail_json msg)
  | inr node => exists rest, calls (main px p) = t ++ CallAddNodes node :: rest
  end /\
  (forall n d, ~ In (CallUpdateNode n d) (calls (main px p))) /\
  (forall st payload, outcome (main px p) <> exit_json false st payload).
Proof.
  intros Hf Hs Hi Ha Hp.
  split; [intros lb'; apply get_node_in_none_supplied|].
  assert (Hn : found p lb = None).
  { unfold found, _get_node. rewrite Hi, Ha, Hp.
    apply get_node_in_none_supplied. }
  assert (Hm := mutate_present_missing px p lb (present_not_absent p Hs) Hn).
  rewrite Hi in Hm. cbn [truthy_int] in Hm.
  unfold new_node_of, condition_of, typ_of in Hm. rewrite Ha, Hp in Hm.
  destruct (fetch_calls _ _ _ _ Hf) as [-> _].
  destruct (new_node px _) as [msg|node].
  { rewrite (main_exit _ _ _ _ _ _ Hf Hm), app_nil_r.
    unfold calls, outcome. simpl.
    split; [reflexivity|]. split; [|discriminate].
    intros n d [H|[]]; discriminate H. }
  destruct (add_nodes px node) as [message|body].
  - rewrite (main_exit _ _ _ _ _ _ Hf Hm). unfold calls, outcome. simpl.
    split; [eauto|]. split; [|discriminate].
    intros n d [H|[H|[]]]; discriminate H.
  - rewrite (main_result _ _ _ _ _ _ Hf Hm).
    unfold calls at 1 3, outcome at 1. cbn [fst snd app].
    split; [eauto|]. split.
    + intros n d [H|[H|H]]; try discriminate H.
      revert H. apply not_wait_in_report. exact (fun x => x).
    + intros st payload.
      destruct (report_outcome px p lb body) as [-> | [s ->]];
        discriminate.
Qed.

Lemma no_criteria_creates_witness :
  (forall lb', _get_node lb' None None None = None) /\
  main (Sample.px Requests.building) Requests.blank =
    ([CallGet 71],
     fail_json "You must include an address and a port when creating a node.")
  /\
  (forall n d, ~ In (CallUpdateNode n d)
                    (calls (main (Sample.px Requests.building) Requests.blank))) /\
  (forall st payload,
     outcome (main (Sample.px Requests.building) Requests.blank) <>
     exit_json false st payload).
Proof.
  exact (no_criteria_creates (Sample.px Requests.building) Requests.blank
           [CallGet 71] Sample.lb eq_refl eq_refl eq_refl eq_refl eq_refl).
Defined.

(** ** The diff *)

Lemma lookup_mutable_of p name :
  mutable_of p !! name =
  if decide (name = "condition") then Some (of_str (condition_of p))
  else if decide (name = "type") then Some (of_str (typ_of p))
  else if decide (name = "weight") then Some (of_int (param_weight p))
  else None.
Proof.
  unfold mutable_of. rewrite !lookup_insert, lookup_empty.
  repeat (case_decide; subst; try congruence).
Qed.

Lemma keep_iff (x g v : Value) :
  (if bool_decide (x = VNone) || bool_decide (x = g)
   then None else Some x) = Some v <->
  v = x /\ v <> VNone /\ v <> g.
Proof.
  destruct (bool_decide_reflect (x = VNone)) as [E1|E1];
    destruct (bool_decide_reflect (x = g)) as [E2|E2]; simpl; split;
    try discriminate;
    try (intros (-> & H1 & H2); congruence).
  intros [= <-]. repeat split; assumption.
Qed.

(** What the loop leaves: an entry of [mutable] stays when its value is
    not [None] and differs from the node's attribute. *)
Lemma lookup_diff p n name v :
  pop_unchanged n (mutable_of p) !! name = Some v <->
  (name = "condition" /\ v = of_str (condition_of p) \/
   name = "type" /\ v = of_str (typ_of p) \/
   name = "weight" /\ v = of_int (param_weight p)) /\
  v <> VNone /\ v <> getattr n name.
Proof.
  rewrite lookup_pop_unchanged, lookup_mutable_of. unfold unchanged.
  destruct (decide (name = "condition")) as [->|Hc].
  { rewrite keep_iff. split.
    - intros (-> & H1 & H2). split; [left; split; reflexivity|].
      split; assumption.
    - intros ([[_ ->]|[[E _]|[E _]]] & H1 & H2);
        [repeat split; assumption | discriminate E | discriminate E]. }
  destruct (decide (name = "type")) as [->|Ht].
  { rewrite keep_iff. split.
    - intros (-> & H1 & H2). split; [right; left; split; reflexivity|].
      split; assumption.
    - intros ([[E _]|[[_ ->]|[E _]]] & H1 & H2);
        [discriminate E | repeat split; assumption | discriminate E]. }
  destruct (decide (name = "weight")) as [->|Hw].
  { rewrite keep_iff. split.
    - intros (-> & H1 & H2). split; [right; right; split; reflexivity|].
      split; assumption.
    - intros ([[E _]|[[E _]|[_ ->]]] & H1 & H2);
        [discriminate E | discriminate E | repeat split; assumption]. }
  split; [discriminate|].
  intros ([[E _]|[[E _]|[E _]]] & _); contradiction.
Qed.

Lemma diff_empty_iff p n :
  pop_unchanged n (mutable_of p) = ∅ <->
  (forall name v, ~ ((name = "condition" /\ v = of_str (condition_of p) \/
                      name = "type" /\ v = of_str (typ_of p) \/
                      name = "weight" /\ v = of_int (param_weight p)) /\
                     v <> VNone /\ v <> getattr n name)).
Proof.
  split.
  - intros He name v Hv. apply lookup_diff in Hv.
    rewrite He, lookup_empty in Hv. discriminate Hv.
  - intros Hall. apply map_eq. intros name. rewrite lookup_empty.
    destruct (pop_unchanged n (mutable_of p) !! name) as [v|] eqn:E;
      [|reflexivity].
    apply lookup_diff in E. destruct (Hall name v E).
Qed.

Lemma getattr_condition n : getattr n "condition" = VStr (condition n).
Proof. reflexivity. Qed.

Lemma getattr_type n : getattr n "type" = VStr (type n).
Proof. reflexivity. Qed.

Lemma getattr_weight n : getattr n "weight" = of_int (weight n).
Proof. reflexivity. Qed.

Lemma diff_empty_when_already p n :
  already p n -> pop_unchanged n (mutable_of p) = ∅.
Proof.
  intros (Hc & Ht & Hw). apply diff_empty_iff.
  intros name v ([[-> ->]|[[-> ->]|[-> ->]]] & Hv & Hg); apply Hg.
  - destruct (condition_of p) as [c|]; [|destruct (Hv eq_refl)].
    rewrite getattr_condition, (Hc c eq_refl). reflexivity.
  - destruct (typ_of p) as [ty|]; [|destruct (Hv eq_refl)].
    rewrite getattr_type, (Ht ty eq_refl). reflexivity.
  - destruct (param_weight p) as [w|]; [|destruct (Hv eq_refl)].
    rewrite getattr_weight, (Hw w eq_refl). reflexivity.
Qed.

Lemma main_no_op px p t lb n :
  fetch px p = (t, inr lb) ->
  param_state p <> "absent" ->
  found p lb = Some n ->
  pop_unchanged n (mutable_of p) = ∅ ->
  main px p =
  (t, exit_json false (param_state p) (Some (rax_clb_node_to_dict (Some n)))).
Proof.
  intros Hf Hs Hn Hd.
  assert (Hm := mutate_present_found px p lb n Hs Hn).
  cbv zeta in Hm. rewrite (bool_decide_eq_true_2 _ Hd) in Hm.
  rewrite (main_exit _ _ _ _ _ _ Hf Hm), app_nil_r. reflexivity.
Qed.

Lemma main_update px p t lb n :
  fetch px p = (t, inr lb) ->
  param_state p <> "absent" ->
  found p lb = Some n ->
  pop_unchanged n (mutable_of p) <> ∅ ->
  exists rest,
    calls (main px p) =
      t ++ CallUpdateNode n (pop_unchanged n (mutable_of p)) :: rest /\
    Forall is_wait rest /\
    (outcome (main px p) =
       exit_json true (param_state p)
         (kwargs (pop_unchanged n (mutable_of p) ∪
                  rax_clb_node_to_dict (Some n))) /\
     update_node px n (pop_unchanged n (mutable_of p)) = None \/
     exists msg, outcome (main px p) = fail_json msg).
Proof.
  intros Hf Hs Hn Hd.
  assert (Hm := mutate_present_found px p lb n Hs Hn).
  cbv zeta in Hm. rewrite (bool_decide_eq_false_2 _ Hd) in Hm.
  destruct (update_node px n (pop_unchanged n (mutable_of p))) as [msg|].
  - rewrite (main_exit _ _ _ _ _ _ Hf Hm). exists [].
    split; [reflexivity|]. split; [constructor|]. right. eauto.
  - rewrite (main_result _ _ _ _ _ _ Hf Hm).
    eexists. split; [reflexivity|]. split; [apply report_calls|].
    unfold outcome at 1 3. cbn [snd].
    destruct (report_outcome px p lb
                (pop_unchanged n (mutable_of p) ∪ rax_clb_node_to_dict (Some n)))
      as [-> | [s ->]]; [left | right; eauto].
    split; reflexivity.
Qed.

(** ** Idempotence *)

Lemma get_node_in_matches ns i a q n :
  _get_node_in ns i a q = Some n ->
  truthy (match_list n i a q) && all (match_list n i a q) = true.
Proof.
  induction ns as [|m ns IH]; simpl; [discriminate|].
  destruct (truthy (match_list m i a q) && all (match_list m i a q)) eqn:E.
  - intros [= <-]. exact E.
  - exact IH.
Qed.

Lemma get_node_in_replace_first ns i a q n n' :
  _get_node_in ns i a q = Some n ->
  match_list n' i a q = match_list n i a q ->
  _get_node_in (replace_first n n' ns) i a q = Some n'.
Proof.
  intros Hg Hm. induction ns as [|m ns IH]; simpl in *; [discriminate Hg|].
  destruct (truthy (match_list m i a q) && all (match_list m i a q)) eqn:E.
  - injection Hg as ->. rewrite decide_True by reflexivity.
    simpl. rewrite Hm, E. reflexivity.
  - destruct (decide (m = n)) as [->|Hne].
    + rewrite (get_node_in_matches _ _ _ _ _ Hg) in E. discriminate E.
    + simpl. rewrite E. apply IH, Hg.
Qed.

(** After the diff is applied the node has every value asked for. *)
Lemma already_apply_diff p n :
  already p (apply_diff n (pop_unchanged n (mutable_of p))).
Proof.
  unfold already, apply_diff. cbn [condition type weight].
  repeat split.
  - intros c Hc.
    destruct (pop_unchanged n (mutable_of p) !! "condition") as [v|] eqn:E.
    + apply lookup_diff in E as ([[_ ->]|[[X _]|[X _]]] & _ & _);
        try discriminate X.
      rewrite Hc. reflexivity.
    + destruct (decide (VStr c = getattr n "condition")) as [H|H].
      * rewrite getattr_condition in H. congruence.
      * assert (X : pop_unchanged n (mutable_of p) !! "condition"
                    = Some (VStr c)); [|congruence].
        apply lookup_diff. rewrite Hc.
        repeat split; [left; split; reflexivity | discriminate | exact H].
  - intros ty Hty.
    destruct (pop_unchanged n (mutable_of p) !! "type") as [v|] eqn:E.
    + apply lookup_diff in E as ([[X _]|[[_ ->]|[X _]]] & _ & _);
        try discriminate X.
      rewrite Hty. reflexivity.
    + destruct (decide (VStr ty = getattr n "type")) as [H|H].
      * rewrite getattr_type in H. congruence.
      * assert (X : pop_unchanged n (mutable_of p) !! "type"
                    = Some (VStr ty)); [|congruence].
        apply lookup_diff. rewrite Hty.
        repeat split; [right; left; split; reflexivity | discriminate | exact H].
  - intros w Hw.
    destruct (pop_unchanged n (mutable_of p) !! "weight") as [v|] eqn:E.
    + apply lookup_diff in E as ([[X _]|[[X _]|[_ ->]]] & _ & _);
        try discriminate X.
      rewrite Hw. reflexivity.
    + destruct (decide (VInt w = getattr n "weight")) as [H|H].
      * rewrite getattr_weight in H. destruct (weight n); simpl in H; congruence.
      * assert (X : pop_unchanged n (mutable_of p) !! "weight"
                    = Some (VInt w)); [|congruence].
        apply lookup_diff. rewrite Hw.
        repeat split; [right; right; split; reflexivity | discriminate | exact H].
Qed.

(** X15, a second run: once the balancer has applied the diff of a first
    state=present run to the matched node, the same request finds that
    node again and changes nothing. *)
Lemma second_run_is_no_op px' p t' lb lb' n :
  param_state p = "present" ->
  found p lb = Some n ->
  nodes lb' =
    replace_first n (apply_diff n (pop_unchanged n (mutable_of p))) (nodes lb) ->
  fetch px' p = (t', inr lb') ->
  main px' p =
  (t', exit_json false "present"
         (Some (rax_clb_node_to_dict
                  (Some (apply_diff n (pop_unchanged n (mutable_of p))))))).
Proof.
  intros Hs Hn Hl Hf.
  set (n' := apply_diff n (pop_unchanged n (mutable_of p))) in *.
  assert (Hn' : found p lb' = Some n').
  { unfold found, _get_node in *. rewrite Hl.
    apply get_node_in_replace_first; [exact Hn | reflexivity]. }
  rewrite (main_no_op px' p t' lb' n' Hf (present_not_absent p Hs) Hn').
  - rewrite Hs. reflexivity.
  - apply diff_empty_when_already, already_apply_diff.
Qed.

(** C6: with state=present, when the lookup matches a node whose
    condition, type and weight already equal every desired value that
    was given, the module exits with changed=false, reports the node
    and makes no call beyond the fetch. *)
Theorem present_is_idempotent px p t lb n :
  fetch px p = (t, inr lb) ->
  param_state p = "present" ->
  found p lb = Some n ->
  already p n ->
  main px p =
  (t, exit_json false "present" (Some (rax_clb_node_to_dict (Some n)))).
Proof.
  intros Hf Hs Hn Ha.
  rewrite (main_no_op px p t lb n Hf (present_not_absent p Hs) Hn).
  - rewrite Hs. reflexivity.
  - apply diff_empty_when_already, Ha.
Qed.

Lemma present_is_idempotent_witness :
  already (Requests.set_condition "enabled") Sample.n1 /\
  main (Sample.px Requests.building) (Requests.set_condition "enabled") =
  ([CallGet 71],
   exit_json false "present" (Some (rax_clb_node_to_dict (Some Sample.n1)))).
Proof.
  assert (Ha : already (Requests.set_condition "enabled") Sample.n1).
  { repeat split; intros x [= <-]; reflexivity. }
  split; [exact Ha|].
  apply (present_is_idempotent (Sample.px Requests.building)
           (Requests.set_condition "enabled") [CallGet 71] Sample.lb Sample.n1);
    [reflexivity | reflexivity | reflexivity | exact Ha].
Defined.

(** ** The diff sent to update *)






(** The scenario of the documentation: draining node 1 sends the diff
    [{condition: DRAINING}] and nothing else. *)
Example drain_node_1 :
  main (Sample.px Requests.building) (Requests.set_condition "draining") =
  ([CallGet 71;
    CallUpdateNode Sample.n1 (<["condition" := VStr "DRAINING"]> ∅)],
   exit_json true "present"
     (Some (<["condition" := VStr "DRAINING"]>
              (rax_clb_node_to_dict (Some Sample.n1))))).
Proof. vm_compute. reflexivity. Qed.

(** ** The report *)

Lemma exit_json_inj c s n c' s' n' :
  exit_json c s n = exit_json c' s' n' -> c' = c /\ s' = s /\ n' = n.
Proof.
  intros H. repeat split.
  - exact (f_equal (fun e => match e with
                             | exit_json x _ _ => x | _ => c' end) (eq_sym H)).
  - exact (f_equal (fun e => match e with
                             | exit_json _ x _ => x | _ => s' end) (eq_sym H)).
  - exact (f_equal (fun e => match e with
                             | exit_json _ _ x => x | _ => n' end) (eq_sym H)).
Qed.

Lemma kwargs_empty : kwargs ∅ = None.
Proof. reflexivity. Qed.

Lemma lookup_id_node_dict n :
  rax_clb_node_to_dict (Some n) !! "id" = Some (VInt (id n)).
Proof. unfold rax_clb_node_to_dict. apply lookup_insert_eq. Qed.

Lemma kwargs_updated (diff : gmap string Value) n :
  kwargs (diff ∪ rax_clb_node_to_dict (Some n)) =
  Some (diff ∪ rax_clb_node_to_dict (Some n)).
Proof.
  unfold kwargs. rewrite bool_decide_eq_false_2; [reflexivity|].
  intros H. apply (f_equal (fun m : gmap string Value => m !! "id")) in H.
  rewrite lookup_union, lookup_id_node_dict, lookup_empty in H.
  destruct (diff !! "id"); discriminate H.
Qed.

(** C7: every successful exit of [main] reports the state asked for and
    is one of six cases.  The changed flag is false for the two no-ops
    and for a node the SDK no longer finds on delete, and true for a
    delete, a create and an update.  The node reported is the matched
    node's attributes for a no-op with a match, those attributes
    overlaid with the diff for an update, the node the SDK returned for
    a create; for a delete the result is the empty dictionary, which
    line 294 reports by leaving the [node] entry out, and a no-op
    without a match reports no node. *)
Theorem changed_flag_and_payload px p t lb changed st payload :
  fetch px p = (t, inr lb) ->
  outcome (main px p) = exit_json changed st payload ->
  st = param_state p /\
  Reported px p lb changed payload /\
  kwargs ∅ = None /\
  (forall n, kwargs (pop_unchanged n (mutable_of p) ∪
                     rax_clb_node_to_dict (Some n)) =
             Some (pop_unchanged n (mutable_of p) ∪
                   rax_clb_node_to_dict (Some n))).
Proof.
  intros Hf Ho.
  enough (G : st = param_state p /\ Reported px p lb changed payload).
  { destruct G as [G1 G2]. repeat split; try assumption.
    intros n. apply kwargs_updated. }
  destruct (decide (param_state p = "absent")) as [Hs|Hs];
    destruct (found p lb) as [n|] eqn:Hn.
  - assert (Hm := mutate_absent_found px p lb n Hs Hn).
    destruct (_is_primary n && Nat.eqb (length (_get_primary_nodes lb)) 1).
    { rewrite (main_exit _ _ _ _ _ _ Hf Hm) in Ho. discriminate Ho. }
    destruct (delete_node px n) eqn:Hd.
    + rewrite (main_result _ _ _ _ _ _ Hf Hm) in Ho.
      unfold outcome at 1 in Ho. cbn [snd] in Ho.
      destruct (report_outcome px p lb ∅) as [E | [s E]];
        rewrite E in Ho; [|discriminate Ho].
      apply exit_json_inj in Ho as (-> & -> & ->).
      split; [reflexivity|]. exact (DELETE px p lb n Hs Hn Hd).
    + rewrite (main_exit _ _ _ _ _ _ Hf Hm) in Ho.
      apply exit_json_inj in Ho as (-> & -> & ->).
      split; [symmetry; exact Hs|].
      exact (NOT_FOUND_ON_DELETE px p lb n Hs Hn Hd).
    + rewrite (main_exit _ _ _ _ _ _ Hf Hm) in Ho. discriminate Ho.
  - assert (Hm := mutate_absent_missing px p lb Hs Hn).
    rewrite (main_exit _ _ _ _ _ _ Hf Hm) in Ho.
    apply exit_json_inj in Ho as (-> & -> & ->).
    split; [symmetry; exact Hs|].
    exact (NO_OP_without_match px p lb Hs Hn).
  - destruct (decide (pop_unchanged n (mutable_of p) = ∅)) as [Hd|Hd].
    + rewrite (main_no_op px p t lb n Hf Hs Hn Hd) in Ho.
      apply exit_json_inj in Ho as (-> & -> & ->).
      split; [reflexivity|].
      exact (NO_OP_with_match px p lb n Hs Hn Hd).
    + destruct (main_update px p t lb n Hf Hs Hn Hd)
        as (rest & _ & _ & [[E Hu] | [msg E]]);
        rewrite E in Ho; [|discriminate Ho].
      apply exit_json_inj in Ho as (-> & -> & ->).
      split; [reflexivity|].
      exact (UPDATE px p lb n Hs Hn Hd Hu).
  - assert (Hm := mutate_present_missing px p lb Hs Hn).
    destruct (truthy_int (param_node_id p)).
    { rewrite (main_exit _ _ _ _ _ _ Hf Hm) in Ho. discriminate Ho. }
    destruct (new_node px (new_node_of p)) as [message|node] eqn:Hc.
    { rewrite (main_exit _ _ _ _ _ _ Hf Hm) in Ho. discriminate Ho. }
    destruct (add_nodes px node) as [message|body] eqn:Ha.
    { rewrite (main_exit _ _ _ _ _ _ Hf Hm) in Ho. discriminate Ho. }
    rewrite (main_result _ _ _ _ _ _ Hf Hm) in Ho.
    unfold outcome at 1 in Ho. cbn [snd] in Ho.
    destruct (report_outcome px p lb body) as [E | [s E]];
      rewrite E in Ho; [|discriminate Ho].
    apply exit_json_inj in Ho as (-> & -> & ->).
    split; [reflexivity|]. exact (CREATE px p lb node body Hs Hn Hc Ha).
Qed.

Lemma changed_flag_and_payload_witness :
  outcome (main (Sample.px Requests.building)
                (Requests.remove_secondary false (Some 30))) =
    exit_json true "absent" None /\
  "absent" = param_state (Requests.remove_secondary false (Some 30)) /\
  Reported (Sample.px Requests.building)
           (Requests.remove_secondary false (Some 30)) Sample.lb true None.
Proof.
  split; [reflexivity|].
  destruct (changed_flag_and_payload (Sample.px Requests.building)
              (Requests.remove_secondary false (Some 30))
              [CallGet 71] Sample.lb true "absent" None eq_refl eq_refl)
    as (H1 & H2 & _).
  split; [exact H1 | exact H2].
Defined.

(** ** Waiting for the balancer *)

(** [mutate] hands a result on only after exactly one mutating call. *)
Lemma mutate_result px p lb tm result :
  mutate px p lb = (tm, inr result) ->
  exists c, tm = [c] /\ is_mutation c.
Proof.
  intros Hm.
  destruct (decide (param_state p = "absent")) as [Hs|Hs];
    destruct (found p lb) as [n|] eqn:Hn.
  - rewrite (mutate_absent_found px p lb n Hs Hn) in Hm.
    destruct (_is_primary n && Nat.eqb (length (_get_primary_nodes lb)) 1);
      [discriminate Hm|].
    destruct (delete_node px n); try discriminate Hm.
    exists (CallDeleteNode n). split; [congruence | exact I].
  - rewrite (mutate_absent_missing px p lb Hs Hn) in Hm. discriminate Hm.
  - rewrite (mutate_present_found px p lb n Hs Hn) in Hm. cbv zeta in Hm.
    destruct (bool_decide (pop_unchanged n (mutable_of p) = ∅));
      [discriminate Hm|].
    destruct (update_node px n (pop_unchanged n (mutable_of p)));
      [discriminate Hm|].
    exists (CallUpdateNode n (pop_unchanged n (mutable_of p))).
    split; [congruence | exact I].
  - rewrite (mutate_present_missing px p lb Hs Hn) in Hm.
    destruct (truthy_int (param_node_id p)); [discriminate Hm|].
    destruct (new_node px (new_node_of p)) as [|node]; [discriminate Hm|].
    destruct (add_nodes px node); [discriminate Hm|].
    exists (CallAddNodes node). split; [congruence | exact I].
Qed.

Lemma or_1_falsy x : x = None \/ x = Some 0 -> or_1 x = 1.
Proof. intros [-> | ->]; reflexivity. Qed.

Lemma or_1_positive x : (forall n, x = Some n -> 0 <= n) -> 1 <= or_1 x.
Proof.
  intros H. destruct x as [n|]; [|cbv; discriminate].
  specialize (H n eq_refl). unfold or_1, truthy_int.
  destruct (Z.eqb_spec n 0); simpl; lia.
Qed.

Lemma or_1_truthy x n : x = Some n -> n <> 0 -> or_1 x = n.
Proof.
  intros -> Hn. unfold or_1, truthy_int.
  rewrite (proj2 (Z.eqb_neq n 0) Hn). reflexivity.
Qed.

(** [wait_until] is never asked for zero attempts. *)
Lemma wait_timeout_never_zero p : wait_timeout_of p <> 0.
Proof.
  unfold wait_timeout_of, or_1, truthy_int.
  destruct (param_wait_timeout p) as [n|]; [|discriminate].
  destruct (Z.eqb_spec n 0); simpl; [discriminate | assumption].
Qed.

Lemma last_map_seq {A} (f : nat -> A) k d :
  List.last (List.map f (seq 0 (S k))) d = f k.
Proof. rewrite seq_S, List.map_app. cbn [List.map]. apply List.last_last. Qed.

(** With no attempt to make, the wait is the [wait_until] call alone. *)
Lemma report_calls_no_attempt px p lb result :
  param_wait p = true ->
  wait_timeout_of p <= 0 ->
  calls (run (report px p lb result)) = [CallWaitUntil 1 (wait_timeout_of p)].
Proof.
  intros Hw H0. unfold report, wait_until. rewrite Hw.
  replace (Z.to_nat (wait_timeout_of p)) with O by lia.
  cbn [wait_loop]. unfold bind, call, ret, fail, exit.
  destruct (negb (bool_decide (status lb = "ACTIVE"))); reflexivity.
Qed.

(** C8, as the code has it: after a mutation that succeeded, with wait
    set and a configured wait_timeout that is not negative,
    [wait_until] is called with an interval of one second and
    wait_timeout attempts (1 when wait_timeout is 0 or null) and polls
    the status at most that many times.  When none of those polls reads
    ACTIVE, exactly that many polls are made and the module fails with
    a message that gives the timeout in seconds and the last status
    read, in lower case. *)
Theorem wait_times_out px p t lb tm result :
  fetch px p = (t, inr lb) ->
  mutate px p lb = (tm, inr result) ->
  param_wait p = true ->
  (forall n, param_wait_timeout p = Some n -> 0 <= n) ->
  let attempts := or_1 (param_wait_timeout p) in
  (param_wait_timeout p = None \/ param_wait_timeout p = Some 0 ->
   attempts = 1) /\
  (forall n, param_wait_timeout p = Some n -> n <> 0 -> attempts = n) /\
  1 <= attempts /\
  (exists c, tm = [c] /\ is_mutation c) /\
  (exists tr,
     calls (main px p) = t ++ tm ++ CallWaitUntil 1 attempts :: tr /\
     Forall is_wait tr /\ (polls tr <= Z.to_nat attempts)%nat) /\
  ((forall i, (i < Z.to_nat attempts)%nat -> reload_status px i <> "ACTIVE") ->
   calls (main px p) =
     t ++ tm ++ CallWaitUntil 1 attempts ::
       reloads (reload_status px) 0 (Z.to_nat attempts) /\
   polls (reloads (reload_status px) 0 (Z.to_nat attempts)) =
     Z.to_nat attempts /\
   outcome (main px p) =
     fail_json
       ("Load balancer not active after " +:+ pretty attempts +:+
        "s (current status: " +:+
        PyStr.lower (reload_status px (Z.to_nat attempts - 1)) +:+ ")")).
Proof.
  intros Hf Hm Hw Hn attempts. subst attempts.
  assert (H1 : 1 <= or_1 (param_wait_timeout p)) by (apply or_1_positive, Hn).
  split; [apply or_1_falsy|].
  split; [intros n; apply or_1_truthy|].
  split; [exact H1|].
  rewrite (main_result _ _ _ _ _ _ Hf Hm).
  split; [exact (mutate_result _ _ _ _ _ Hm)|]. split.
  - destruct (report_wait px p lb result Hw) as (tr & s & -> & Hfa & Hp & _).
    exists tr. repeat split; assumption.
  - intros Hne.
    rewrite (report_wait_never px p lb result Hw Hne)
      by (unfold wait_timeout_of; lia).
    unfold wait_timeout_of, calls, outcome. cbn [fst snd].
    split; [reflexivity|]. split; [apply polls_reloads|].
    destruct (Z.to_nat (or_1 (param_wait_timeout p))) as [|k] eqn:E; [lia|].
    rewrite last_map_seq. replace (S k - 1)%nat with k by lia.
    reflexivity.
Qed.

Lemma wait_times_out_witness :
  calls (main (Sample.px Requests.building)
              (Requests.remove_secondary true (Some 5))) =
    [CallGet 71] ++ [CallDeleteNode Sample.n2] ++
    CallWaitUntil 1 5 :: reloads Requests.building 0 5 /\
  polls (reloads Requests.building 0 5) = 5%nat /\
  outcome (main (Sample.px Requests.building)
                (Requests.remove_secondary true (Some 5))) =
    fail_json "Load balancer not active after 5s (current status: build)".
Proof.
  destruct (wait_times_out (Sample.px Requests.building)
              (Requests.remove_secondary true (Some 5))
              [CallGet 71] Sample.lb [CallDeleteNode Sample.n2] ∅
              eq_refl eq_refl eq_refl) as (_ & _ & _ & _ & _ & H).
  - intros n [= <-]. lia.
  - apply H. intros i _. discriminate.
Defined.

(** C8, as the claim words it: with wait set and wait_timeout=-1, after
    a delete that succeeded on a balancer fetched as ACTIVE, no poll is
    made although every poll would read BUILD, and the run reports
    changed=true where the claim has a failure after wait_timeout
    attempts. *)
Lemma negative_timeout_reports_success :
  param_wait (Requests.remove_secondary true (Some (-1))) = true /\
  (forall i, reload_status (Sample.px Requests.building) i <> "ACTIVE") /\
  main (Sample.px Requests.building)
       (Requests.remove_secondary true (Some (-1))) =
    ([CallGet 71; CallDeleteNode Sample.n2; CallWaitUntil 1 (-1)],
     exit_json true "absent" None).
Proof. repeat split. intros i. discriminate. Qed.

(** ** The timeout that is used *)

(** C10, as the code has it: a wait_timeout of 0 or null becomes 1 and
    any other value is passed to [wait_until] as it is.  So when the
    wait is reached (wait set, after a mutation that succeeded) with a
    timeout that is not negative, [wait_until] is called with at least
    one attempt and the call is followed by a status poll; with a
    negative timeout it is called with that negative number of attempts
    and no poll follows. *)
Theorem wait_polls_at_least_once px p t lb tm result :
  fetch px p = (t, inr lb) ->
  mutate px p lb = (tm, inr result) ->
  param_wait p = true ->
  (param_wait_timeout p = None \/ param_wait_timeout p = Some 0 ->
   wait_timeout_of p = 1) /\
  (forall n, param_wait_timeout p = Some n -> n <> 0 ->
             wait_timeout_of p = n) /\
  ((forall n, param_wait_timeout p = Some n -> 0 <= n) ->
   1 <= wait_timeout_of p /\
   exists rest,
     calls (main px p) =
     t ++ tm ++ CallWaitUntil 1 (wait_timeout_of p) ::
       Reload (reload_status px 0) :: rest) /\
  (forall n, param_wait_timeout p = Some n -> n < 0 ->
             calls (main px p) = t ++ tm ++ [CallWaitUntil 1 n]).
Proof.
  intros Hf Hm Hw.
  split; [apply or_1_falsy|].
  split; [intros n; apply or_1_truthy|].
  rewrite (main_result _ _ _ _ _ _ Hf Hm). unfold calls at 1 3. cbn [fst].
  split.
  - intros Hn.
    assert (H1 : 1 <= wait_timeout_of p) by (apply or_1_positive, Hn).
    split; [exact H1|].
    destruct (report_wait px p lb result Hw) as (tr & s & -> & _ & _ & Hr).
    destruct Hr as [rest ->]; [lia|].
    exists rest. reflexivity.
  - intros n Hn Hneg.
    assert (E : wait_timeout_of p = n)
      by (apply (or_1_truthy _ n Hn); lia).
    rewrite (report_calls_no_attempt px p lb result Hw) by lia.
    rewrite E. reflexivity.
Qed.

Lemma wait_polls_at_least_once_witness :
  wait_timeout_of (Requests.remove_secondary true (Some 0)) = 1 /\
  exists rest,
    calls (main (Sample.px Requests.building)
                (Requests.remove_secondary true (Some 0))) =
    [CallGet 71] ++ [CallDeleteNode Sample.n2] ++
    CallWaitUntil 1 1 :: Reload "BUILD" :: rest.
Proof.
  destruct (wait_polls_at_least_once (Sample.px Requests.building)
              (Requests.remove_secondary true (Some 0))
              [CallGet 71] Sample.lb [CallDeleteNode Sample.n2] ∅
              eq_refl eq_refl eq_refl) as (H1 & _ & H2 & _).
  split; [apply H1; right; reflexivity|].
  apply H2. intros n [= <-]. lia.
Defined.

(** C10, as the claim words it: with wait set and wait_timeout=-1 the
    timeout is not coerced, [wait_until] is called with -1 attempts
    after the delete, and no status poll is made at all. *)
Lemma negative_timeout_never_polls :
  param_wait (Requests.remove_secondary true (Some (-1))) = true /\
  wait_timeout_of (Requests.remove_secondary true (Some (-1))) = -1 /\
  calls (main (Sample.px Requests.building)
              (Requests.remove_secondary true (Some (-1)))) =
    [CallGet 71; CallDeleteNode Sample.n2; CallWaitUntil 1 (-1)] /\
  polls (calls (main (Sample.px Requests.building)
                     (Requests.remove_secondary true (Some (-1))))) = 0%nat.
Proof. repeat split. Qed.

(** ** A node id that is not there *)

(** X12: with state=present, a node id that is not zero and no matching node,
    the module fails with the "not found" message and calls nothing
    beyond the fetch. *)
Lemma named_node_missing_fails px p t lb i :
  fetch px p = (t, inr lb) ->
  param_state p = "present" ->
  param_node_id p = Some i ->
  i <> 0 ->
  found p lb = None ->
  main px p = (t, fail_json (not_found_msg i lb)).
Proof.
  intros Hf Hs Hi H0 Hn.
  assert (Hm := mutate_present_missing px p lb (present_not_absent p Hs) Hn).
  rewrite Hi in Hm. cbn [truthy_int default] in Hm.
  rewrite (proj2 (Z.eqb_neq i 0) H0) in Hm. cbn [negb] in Hm.
  rewrite (main_exit _ _ _ _ _ _ Hf Hm), app_nil_r. reflexivity.
Qed.

(** The scenario of the documentation: node 999 is not on the balancer. *)
Example node_999_not_found :
  main (Sample.px Requests.building) (Requests.by_id "present" 999) =
  ([CallGet 71], fail_json "Node 999 not found (available nodes: 1, 2)").
Proof. reflexivity. Qed.

(** C4 at node_id=0: the id is supplied and no node of the balancer has
    it, yet [if node_id:] takes 0 for "not supplied" and the module
    goes on to create a node instead of failing. *)
Theorem node_id_zero_creates :
  param_state Requests.id_zero = "present" /\
  param_node_id Requests.id_zero = Some 0 /\
  found Requests.id_zero Sample.lb = None /\
  main (Sample.px Requests.building) Requests.id_zero =
  ([CallGet 71;
    CallAddNodes (mkNewNode (Some "10.2.2.5") (Some 80) None None None)],
   exit_json true "present"
     (Some (<["id" := VInt 3]> (<["address" := VStr "10.2.2.5"]> ∅)))).
Proof. repeat split. Qed.

(** ** Removing a node that is not there *)

(** C5: with state=absent and no node matching the lookup, the module
    exits successfully with changed=false and performs no mutation; it
    is not a failure. *)
Theorem absent_not_found_is_no_op px p t lb :
  fetch px p = (t, inr lb) ->
  param_state p = "absent" ->
  found p lb = None ->
  main px p = (t, exit_json false "absent" None).
Proof.
  intros Hf Hs Hn.
  rewrite (main_exit _ _ _ _ _ _ Hf (mutate_absent_missing px p lb Hs Hn)).
  rewrite app_nil_r. reflexivity.
Qed.

Lemma absent_not_found_is_no_op_witness :
  main (Sample.px Requests.building) (Requests.by_id "absent" 999) =
  ([CallGet 71], exit_json false "absent" None).
Proof.
  apply (absent_not_found_is_no_op (Sample.px Requests.building)
           (Requests.by_id "absent" 999) [CallGet 71] Sample.lb);
    reflexivity.
Defined.

(** * Every path through [main] *)

(** The prelude has three ways to end. *)
Lemma fetch_cases px p :
  (exists msg, fetch px p = ([], inl (fail_json msg))) \/
  (exists msg,
     fetch px p = ([CallGet (param_load_balancer_id p)], inl (fail_json msg)) /\
     get px (param_load_balancer_id p) = inl msg) \/
  (exists lb, fetched px p lb).
Proof.
  unfold fetched, fetch, bind, fail, exit, ret, call.
  destruct (HAS_PYRAX px); [|left; eauto].
  destruct (truthy_str (param_virtualenv p));
    [destruct (activate_virtualenv px _); [left; eauto|]|];
    (destruct (setup_rax_module px); [left; eauto|]);
    (destruct (cloud_loadbalancers px); [|left; eauto]);
    (destruct (get px (param_load_balancer_id p)) as [msg|lb];
     [right; left; exists msg | right; right; exists lb]);
    simpl; auto.
Qed.

Section WaitLoopTrace.

Variable reload : nat -> string.
Variable desired : string.

(** The loop's trace is made of polls only. *)
Lemma wait_loop_reloads fuel : forall k cur tr r,
  wait_loop reload desired fuel k cur = (tr, r) ->
  Forall (fun c => is_reload c = true) tr.
Proof.
  induction fuel as [|fuel IH]; intros k cur tr r; simpl.
  - intros [= <- _]. constructor.
  - unfold bind, call.
    destruct (bool_decide (reload k = desired)).
    + intros [= <- _]. repeat constructor.
    + destruct (wait_loop reload desired fuel (S k) (reload k))
        as [tr' r'] eqn:E.
      intros [= <- _]. constructor; [reflexivity|].
      exact (IH _ _ _ _ E).
Qed.

(** The loop stops at the first poll that reads the desired status. *)
Lemma wait_loop_first j : forall fuel k cur,
  (j < fuel)%nat ->
  (forall i, (k <= i < k + j)%nat -> reload i <> desired) ->
  reload (k + j)%nat = desired ->
  wait_loop reload desired fuel k cur = (reloads reload k (S j), inr desired).
Proof.
  induction j as [|j IH]; intros fuel k cur Hlt Hne Heq;
    (destruct fuel as [|fuel]; [lia|]); cbn [wait_loop]; unfold bind, call.
  - rewrite Nat.add_0_r in Heq.
    rewrite (bool_decide_eq_true_2 _ Heq). unfold reloads, ret. simpl.
    rewrite Heq. reflexivity.
  - rewrite bool_decide_eq_false_2 by (apply Hne; lia).
    rewrite (IH fuel (S k) (reload k)); [reflexivity | lia | |].
    + intros i Hi. apply Hne. lia.
    + rewrite <- Heq. f_equal. lia.
Qed.

End WaitLoopTrace.

(** The report either does not wait, or calls [wait_until] once and
    then only polls. *)
Lemma report_shape px p lb result :
  (param_wait p = false /\
   run (report px p lb result) =
     ([], exit_json true (param_state p) (kwargs result))) \/
  (param_wait p = true /\
   exists tr s,
     run (report px p lb result) =
       (CallWaitUntil 1 (wait_timeout_of p) :: tr,
        if bool_decide (s = "ACTIVE")
        then exit_json true (param_state p) (kwargs result)
        else fail_json (not_active_msg (wait_timeout_of p) s)) /\
     Forall (fun c => is_reload c = true) tr).
Proof.
  destruct (param_wait p) eqn:Hw.
  - right. split; [reflexivity|].
    unfold report, wait_until. rewrite Hw.
    destruct (wait_loop_total (reload_status px) "ACTIVE"
                (Z.to_nat (wait_timeout_of p)) 0%nat (status lb))
      as (tr & s & Hl & _).
    assert (Hr := wait_loop_reloads _ _ _ _ _ _ _ Hl).
    unfold bind at 3. unfold call at 1. rewrite Hl.
    unfold bind, ret, fail, exit. exists tr, s.
    destruct (bool_decide (s = "ACTIVE")); simpl; rewrite ?app_nil_r;
      (split; [reflexivity | exact Hr]).
  - left. split; [reflexivity|]. rewrite report_no_wait by exact Hw.
    reflexivity.
Qed.

(** Every run of [main] is one of the paths of [Run]. *)
Lemma main_run px p : Run px p (main px p).
Proof.
  destruct (fetch_cases px p) as [[msg Hf] | [(msg & Hf & Hg) | [lb Hf]]].
  - unfold main, bind. rewrite Hf. apply run_prelude_failed, Hf.
  - unfold main, bind. rewrite Hf. apply run_get_failed, Hg.
  - assert (Hf' := Hf). unfold fetched in Hf'.
    destruct (decide (param_state p = "absent")) as [Hs|Hs];
      destruct (found p lb) as [n|] eqn:Hn.
    + assert (Hm := mutate_absent_found px p lb n Hs Hn).
      fold (is_last_primary lb n) in Hm.
      destruct (is_last_primary lb n) eqn:Hl.
      { rewrite (main_exit _ _ _ _ _ _ Hf' Hm).
        exact (run_last_primary px p lb n Hf Hs Hn Hl). }
      destruct (delete_node px n) eqn:Hd.
      * rewrite (main_result _ _ _ _ _ _ Hf' Hm).
        destruct (run (report px p lb ∅)) as [w e] eqn:Hr.
        exact (run_deleted px p lb n w e Hf Hs Hn Hl Hd Hr).
      * rewrite (main_exit _ _ _ _ _ _ Hf' Hm). rewrite <- Hs.
        exact (run_delete_not_found px p lb n Hf Hs Hn Hl Hd).
      * rewrite (main_exit _ _ _ _ _ _ Hf' Hm).
        exact (run_delete_failed px p lb n _ Hf Hs Hn Hl Hd).
    + rewrite (main_exit _ _ _ _ _ _ Hf' (mutate_absent_missing px p lb Hs Hn)).
      rewrite <- Hs. exact (run_absent_missing px p lb Hf Hs Hn).
    + assert (Hm := mutate_present_found px p lb n Hs Hn). cbv zeta in Hm.
      destruct (decide (pop_unchanged n (mutable_of p) = ∅)) as [Hd|Hd].
      { rewrite (bool_decide_eq_true_2 _ Hd) in Hm.
        rewrite (main_exit _ _ _ _ _ _ Hf' Hm).
        exact (run_no_op px p lb n Hf Hs Hn Hd). }
      rewrite (bool_decide_eq_false_2 _ Hd) in Hm.
      destruct (update_node px n (pop_unchanged n (mutable_of p)))
        as [msg|] eqn:Hu.
      * rewrite (main_exit _ _ _ _ _ _ Hf' Hm).
        exact (run_update_failed px p lb n msg Hf Hs Hn Hd Hu).
      * rewrite (main_result _ _ _ _ _ _ Hf' Hm).
        destruct (run (report px p lb _)) as [w e] eqn:Hr.
        exact (run_updated px p lb n w e Hf Hs Hn Hd Hu Hr).
    + assert (Hm := mutate_present_missing px p lb Hs Hn).
      destruct (truthy_int (param_node_id p)) eqn:Ht.
      { rewrite (main_exit _ _ _ _ _ _ Hf' Hm).
        exact (run_node_missing px p lb Hf Hs Hn Ht). }
      destruct (new_node px (new_node_of p)) as [msg|node] eqn:Hc.
      { rewrite (main_exit _ _ _ _ _ _ Hf' Hm).
        exact (run_node_refused px p lb msg Hf Hs Hn Ht Hc). }
      destruct (add_nodes px node) as [msg|body] eqn:Ha.
      * rewrite (main_exit _ _ _ _ _ _ Hf' Hm).
        exact (run_add_failed px p lb node msg Hf Hs Hn Ht Hc Ha).
      * rewrite (main_result _ _ _ _ _ _ Hf' Hm).
        destruct (run (report px p lb body)) as [w e] eqn:Hr.
        exact (run_created px p lb node body w e Hf Hs Hn Ht Hc Ha Hr).
Qed.

(** What a report leaves in the trace and how it ends. *)
Lemma report_run px p lb result w e :
  run (report px p lb result) = (w, e) ->
  Forall is_wait w /\
  (w <> [] -> param_wait p = true) /\
  (forall i a, In (CallWaitUntil i a) w -> i = 1 /\ a = wait_timeout_of p) /\
  (e = exit_json true (param_state p) (kwargs result) \/
   exists s, e = fail_json (not_active_msg (wait_timeout_of p) s)).
Proof.
  intros Hr.
  destruct (report_shape px p lb result)
    as [[Hw E] | (Hw & tr & s & E & Htr)]; rewrite E in Hr.
  - injection Hr as <- <-. repeat split.
    + constructor.
    + intros H. destruct (H eq_refl).
    + destruct H.
    + destruct H.
    + left. reflexivity.
  - injection Hr as <- <-. repeat split.
    + constructor; [exact I|].
      apply List.Forall_forall. intros c Hc.
      apply (proj1 (List.Forall_forall _ _) Htr) in Hc.
      destruct c; try discriminate Hc; exact I.
    + intros _. exact Hw.
    + destruct H as [H|H]; [congruence|].
      apply (proj1 (List.Forall_forall _ _) Htr) in H. discriminate H.
    + destruct H as [H|H]; [congruence|].
      apply (proj1 (List.Forall_forall _ _) Htr) in H. discriminate H.
    + destruct (bool_decide (s = "ACTIVE")); [left | right; exists s];
        reflexivity.
Qed.

Lemma fetched_get px p lb :
  fetched px p lb -> get px (param_load_balancer_id p) = inr lb.
Proof. intros H. exact (proj2 (fetch_calls _ _ _ _ H)). Qed.

Lemma fetched_unique px p t lb lb' :
  fetch px p = (t, inr lb) -> fetched px p lb' -> lb' = lb.
Proof. unfold fetched. intros H H'. congruence. Qed.

Lemma wait_not_raised px c : is_wait c -> raised px c = None.
Proof. destruct c; simpl; intros H; try destruct H; reflexivity. Qed.

(** ** Errors of the SDK *)

(** Rewrites the SDK answers known in the context into [Hr]. *)
Ltac use_answers Hr :=
  simpl in Hr;
  repeat match goal with
         | E : ?x = _ |- _ =>
             tryif constr_eq E Hr then fail
             else match type of Hr with context [x] => rewrite E in Hr end
         end;
  simpl in Hr.

(** The fourteen paths, with the names used below. *)
Ltac main_paths px p :=
  destruct (main_run px p)
    as [m Hf | m Hg | lb' Hf Hs Hn | lb' n Hf Hs Hn Hl
        | lb' n Hf Hs Hn Hl Hd | lb' n m Hf Hs Hn Hl Hd
        | lb' n w e Hf Hs Hn Hl Hd Hw
        | lb' Hf Hs Hn Ht | lb' m Hf Hs Hn Ht Hk
        | lb' node m Hf Hs Hn Ht Hk Ha | lb' node body w e Hf Hs Hn Ht Hk Ha Hw
        | lb' n Hf Hs Hn Hd | lb' n m Hf Hs Hn Hd Hu | lb' n w e Hf Hs Hn Hd Hu Hw];
  cbn [fst snd].

(** X1: whatever SDK call raises an exception (get, delete_node,
    add_nodes or update_node), the module fails with the message of
    that exception, unchanged, and does not go on to wait. *)
Theorem sdk_error_is_reported px p c msg :
  In c (calls (main px p)) ->
  raised px c = Some msg ->
  outcome (main px p) = fail_json msg /\
  Forall (fun c' => ~ is_wait c') (calls (main px p)).
Proof.
  intros Hin Hr. revert Hin. unfold calls, outcome.
  main_paths px p; intros Hin;
    try (apply fetched_get in Hf);
    try (apply report_run in Hw as (Hw & _));
    repeat (destruct Hin as [<- | Hin]);
    try (destruct Hin; fail);
    try (use_answers Hr; discriminate Hr);
    try (use_answers Hr; injection Hr as ->;
         split; [reflexivity|]; repeat constructor; intros []);
    try (apply (proj1 (List.Forall_forall _ _) Hw) in Hin;
         rewrite (wait_not_raised px c Hin) in Hr; discriminate Hr).
Qed.

Lemma sdk_error_is_reported_witness :
  outcome (main (Answers.px (inr Sample.lb) Deleted (inl "unused")
                   (Some "422 Unprocessable Entity") Requests.building)
                (Requests.set_condition "draining")) =
    fail_json "422 Unprocessable Entity" /\
  Forall (fun c' => ~ is_wait c')
    (calls (main (Answers.px (inr Sample.lb) Deleted (inl "unused")
                    (Some "422 Unprocessable Entity") Requests.building)
                 (Requests.set_condition "draining"))).
Proof.
  apply (sdk_error_is_reported
           (Answers.px (inr Sample.lb) Deleted (inl "unused")
              (Some "422 Unprocessable Entity") Requests.building)
           (Requests.set_condition "draining")
           (CallUpdateNode Sample.n1 (<["condition" := VStr "DRAINING"]> ∅))
           "422 Unprocessable Entity").
  - vm_compute. right. left. reflexivity.
  - reflexivity.
Defined.

(** ** The prelude *)

(** X2: when the environment cannot be set up or the balancer cannot be
    fetched, [main] ends as the prelude ended: with a failure, never a
    success, after at most the one [get] call. *)
Theorem prelude_failure_is_fatal px p t e :
  fetch px p = (t, inl e) ->
  main px p = (t, e) /\
  (exists msg, e = fail_json msg) /\
  (t = [] \/ t = [CallGet (param_load_balancer_id p)]).
Proof.
  intros Hf. split; [unfold main, bind; rewrite Hf; reflexivity|].
  destruct (fetch_cases px p) as [[msg H] | [(msg & H & _) | [lb H]]];
    [| | unfold fetched in H]; rewrite H in Hf.
  - injection Hf as <- <-. eauto.
  - injection Hf as <- <-. eauto.
  - discriminate Hf.
Qed.

Lemma prelude_failure_is_fatal_witness :
  main Answers.no_pyrax Requests.remove_primary =
    ([], fail_json "pyrax is required for this module").
Proof.
  exact (proj1 (prelude_failure_is_fatal Answers.no_pyrax
                  Requests.remove_primary [] _ eq_refl)).
Defined.

(** ** The shape of a run *)

(** X3: the calls of any run are, in this order: at most one [get], at
    most one mutating call (never without the [get]), and then the wait
    (never without a mutation, and only when wait is set). *)
Theorem trace_shape px p :
  exists pre m w,
    calls (main px p) = pre ++ m ++ w /\
    (pre = [] \/ pre = [CallGet (param_load_balancer_id p)]) /\
    (m = [] \/ exists c, m = [c] /\ is_mutation c) /\
    Forall is_wait w /\
    (m <> [] -> pre <> []) /\
    (w <> [] -> m <> [] /\ param_wait p = true).
Proof.
  unfold calls. main_paths px p;
    try (apply report_run in Hw as (Hw & Hp & _));
    first
      [ exists [], [], [];
        split; [reflexivity|]; split; [left; reflexivity|];
        split; [left; reflexivity|]; split; [constructor|];
        split; intros H; destruct (H eq_refl)
      | exists [CallGet (param_load_balancer_id p)], [], [];
        split; [reflexivity|]; split; [right; reflexivity|];
        split; [left; reflexivity|]; split; [constructor|];
        split; intros H; destruct (H eq_refl)
      | eexists [CallGet (param_load_balancer_id p)], [_], [];
        split; [reflexivity|]; split; [right; reflexivity|];
        split; [right; eexists; split; [reflexivity | exact I]|];
        split; [constructor|];
        split; [discriminate | intros H; destruct (H eq_refl)]
      | eexists [CallGet (param_load_balancer_id p)], [_], w;
        split; [reflexivity|]; split; [right; reflexivity|];
        split; [right; eexists; split; [reflexivity | exact I]|];
        split; [exact Hw|];
        split; [discriminate | intros H; split; [discriminate | exact (Hp H)]] ].
Qed.

(** X4: a run that reports changed=false made no call after the fetch,
    except a delete that the SDK answered with NotFound; in particular
    it did not wait, whatever the wait option says. *)
Theorem unchanged_exit_never_waits px p st payload :
  outcome (main px p) = exit_json false st payload ->
  calls (main px p) = [CallGet (param_load_balancer_id p)] \/
  exists n,
    calls (main px p) = [CallGet (param_load_balancer_id p); CallDeleteNode n] /\
    delete_node px n = NotFound.
Proof.
  unfold calls, outcome. main_paths px p; intros H;
    try discriminate H;
    try (left; reflexivity);
    try (right; exists n; split; [reflexivity | assumption]);
    apply report_run in Hw as (_ & _ & _ & [-> | [s ->]]);
    try discriminate H;
    apply exit_json_inj in H as (H & _); discriminate H.
Qed.

Lemma unchanged_exit_never_waits_witness :
  calls (main (Answers.px (inr Sample.lb) NotFound (inl "unused") None
                 Requests.building)
              (Requests.remove_secondary true (Some 5))) =
    [CallGet 71] \/
  exists n,
    calls (main (Answers.px (inr Sample.lb) NotFound (inl "unused") None
                   Requests.building)
                (Requests.remove_secondary true (Some 5))) =
      [CallGet 71; CallDeleteNode n] /\
    delete_node (Answers.px (inr Sample.lb) NotFound (inl "unused") None
                   Requests.building) n = NotFound.
Proof.
  apply (unchanged_exit_never_waits
           (Answers.px (inr Sample.lb) NotFound (inl "unused") None
              Requests.building)
           (Requests.remove_secondary true (Some 5)) "absent" None).
  reflexivity.
Defined.

(** ** Which mutation *)

(** X5: the mutating call of a run is decided by the state asked for and
    by the lookup alone: a delete of the node found (state=absent, and
    the node is not the last enabled primary), a creation of the node
    the constructor built from the request (state not absent, nothing
    found, node_id falsy), or an
    update of the node found with the diff (state not absent, diff not
    empty).  So state=absent never creates or updates, any other state
    never deletes, and a node that was found is never created again. *)
Theorem mutation_follows_the_decision px p t lb c :
  fetch px p = (t, inr lb) ->
  In c (calls (main px p)) ->
  is_mutation c ->
  (exists n, c = CallDeleteNode n /\ param_state p = "absent" /\
             found p lb = Some n /\ is_last_primary lb n = false) \/
  (exists node, c = CallAddNodes node /\
                new_node px (new_node_of p) = inr node /\
                param_state p <> "absent" /\ found p lb = None /\
                truthy_int (param_node_id p) = false) \/
  (exists n, c = CallUpdateNode n (pop_unchanged n (mutable_of p)) /\
             param_state p <> "absent" /\ found p lb = Some n /\
             pop_unchanged n (mutable_of p) <> ∅).
Proof.
  intros Hfetch Hin Hc. revert Hin. unfold calls.
  main_paths px p; intros Hin;
    try (rewrite (fetched_unique _ _ _ _ _ Hfetch Hf) in * );
    try (apply report_run in Hw as (Hw & _));
    repeat (destruct Hin as [<- | Hin]);
    try (destruct Hin; fail);
    try (destruct Hc; fail);
    try (apply (proj1 (List.Forall_forall _ _) Hw) in Hin;
         destruct c; destruct Hin; destruct Hc);
    first [ left; exists n; repeat split; assumption
          | right; left; exists node; repeat split; assumption
          | right; right; exists n; repeat split; assumption ].
Qed.

Lemma mutation_follows_the_decision_witness :
  (exists n, CallDeleteNode Sample.n2 = CallDeleteNode n /\
             param_state (Requests.remove_secondary false None) = "absent" /\
             found (Requests.remove_secondary false None) Sample.lb = Some n /\
             is_last_primary Sample.lb n = false) \/
  (exists node,
     CallDeleteNode Sample.n2 = CallAddNodes node /\
     new_node (Sample.px Requests.building)
       (new_node_of (Requests.remove_secondary false None)) = inr node /\
     param_state (Requests.remove_secondary false None) <> "absent" /\
     found (Requests.remove_secondary false None) Sample.lb = None /\
     truthy_int (param_node_id (Requests.remove_secondary false None)) = false) \/
  (exists n,
     CallDeleteNode Sample.n2 =
       CallUpdateNode n
         (pop_unchanged n (mutable_of (Requests.remove_secondary false None))) /\
     param_state (Requests.remove_secondary false None) <> "absent" /\
     found (Requests.remove_secondary false None) Sample.lb = Some n /\
     pop_unchanged n (mutable_of (Requests.remove_secondary false None)) <> ∅).
Proof.
  apply (mutation_follows_the_decision (Sample.px Requests.building)
           (Requests.remove_secondary false None) [CallGet 71] Sample.lb
           (CallDeleteNode Sample.n2)).
  - reflexivity.
  - vm_compute. right. left. reflexivity.
  - exact I.
Defined.

(** ** Deleting *)

(** X6: with state=absent, a node found that is not the last enabled
    primary, a delete the SDK accepts and no wait, the run is the fetch
    and the delete of that node, and it reports changed=true without a
    node. *)
Theorem delete_goes_through px p t lb n :
  fetch px p = (t, inr lb) ->
  param_state p = "absent" ->
  found p lb = Some n ->
  is_last_primary lb n = false ->
  delete_node px n = Deleted ->
  param_wait p = false ->
  main px p = (t ++ [CallDeleteNode n], exit_json true "absent" None).
Proof.
  intros Hf Hs Hn Hl Hd Hw.
  assert (Hm := mutate_absent_found px p lb n Hs Hn).
  fold (is_last_primary lb n) in Hm. rewrite Hl, Hd in Hm.
  rewrite (main_result _ _ _ _ _ _ Hf Hm), report_no_wait by exact Hw.
  rewrite Hs. reflexivity.
Qed.

Lemma delete_goes_through_witness :
  main (Sample.px Requests.building) (Requests.remove_secondary false None) =
  ([CallGet 71] ++ [CallDeleteNode Sample.n2], exit_json true "absent" None).
Proof.
  apply (delete_goes_through (Sample.px Requests.building)
           (Requests.remove_secondary false None) [CallGet 71] Sample.lb
           Sample.n2); reflexivity.
Defined.

Lemma get_node_in_In ns i a q n :
  _get_node_in ns i a q = Some n -> In n ns.
Proof.
  induction ns as [|m ns IH]; simpl; [discriminate|].
  destruct (truthy (match_list m i a q) && all (match_list m i a q)).
  - intros [= <-]. left. reflexivity.
  - intros H. right. exact (IH H).
Qed.

Section RemoveFirst.

Variable P : Node -> bool.

Lemma filter_remove_first_other n ns :
  P n = false ->
  List.filter P (remove_first n ns) = List.filter P ns.
Proof.
  intros Hn. induction ns as [|m ns IH]; simpl; [reflexivity|].
  destruct (decide (m = n)) as [->|Hne].
  - rewrite Hn. reflexivity.
  - simpl. rewrite IH. reflexivity.
Qed.

Lemma length_filter_remove_first n ns :
  In n ns -> P n = true ->
  S (length (List.filter P (remove_first n ns))) = length (List.filter P ns).
Proof.
  intros Hin Hn. induction ns as [|m ns IH]; simpl; [destruct Hin|].
  destruct (decide (m = n)) as [->|Hne].
  - rewrite Hn. reflexivity.
  - destruct Hin as [E|Hin]; [destruct (Hne E)|].
    simpl. destruct (P m); simpl; rewrite <- (IH Hin); reflexivity.
Qed.

End RemoveFirst.

(** A delete is sent only for the node found, past the guard. *)
Lemma mutation_paths_delete px p t lb target :
  fetch px p = (t, inr lb) ->
  In (CallDeleteNode target) (calls (main px p)) ->
  found p lb = Some target /\ is_last_primary lb target = false.
Proof.
  intros Hfetch Hin. revert Hin. unfold calls.
  main_paths px p; intros Hin;
    try (rewrite (fetched_unique _ _ _ _ _ Hfetch Hf) in * );
    try (apply report_run in Hw as (Hw & _));
    repeat (destruct Hin as [Hin | Hin]);
    try (destruct Hin; fail);
    try discriminate Hin;
    try (apply (proj1 (List.Forall_forall _ _) Hw) in Hin; destruct Hin);
    injection Hin as <-; split; assumption.
Qed.

(** X7: a delete is only ever sent for a node whose removal leaves an
    enabled primary node on the balancer, if it had one: when a run
    calls [delete_node] for a node and the balancer has an enabled
    primary node, it still has one with that node taken off the list. *)
Theorem delete_keeps_a_primary px p t lb n :
  fetch px p = (t, inr lb) ->
  In (CallDeleteNode n) (calls (main px p)) ->
  _get_primary_nodes lb <> [] ->
  _get_primary_nodes (mkLB (lb_id lb) (status lb) (remove_first n (nodes lb)))
    <> [].
Proof.
  intros Hf Hin Hp.
  destruct (mutation_paths_delete px p t lb n Hf Hin) as (Hn & Hl).
  unfold _get_primary_nodes in *. cbn [nodes].
  apply get_node_in_In in Hn.
  unfold is_last_primary, _get_primary_nodes in Hl.
  destruct (_is_primary n) eqn:Hprim.
  - assert (Hlen := length_filter_remove_first _is_primary n (nodes lb) Hn Hprim).
    simpl in Hl. apply Nat.eqb_neq in Hl.
    intros E. rewrite E in Hlen. simpl in Hlen. congruence.
  - rewrite (filter_remove_first_other _is_primary n (nodes lb) Hprim).
    exact Hp.
Qed.

Lemma delete_keeps_a_primary_witness :
  _get_primary_nodes
    (mkLB 71 "ACTIVE" (remove_first Answers.n3 (nodes Answers.two_primaries)))
    <> [].
Proof.
  apply (delete_keeps_a_primary
           (Answers.px (inr Answers.two_primaries) Deleted (inl "unused") None
              Requests.building)
           (Requests.by_id "absent" 3) [CallGet 71] Answers.two_primaries
           Answers.n3).
  - reflexivity.
  - vm_compute. right. left. reflexivity.
  - discriminate.
Defined.

(** ** Waiting *)

(** X8: [wait_until] is only called when wait is set and a mutating call
    was made, always with an interval of 1 and with [wait_timeout or 1]
    attempts, which is never 0. *)
Theorem wait_until_arguments px p interval attempts :
  In (CallWaitUntil interval attempts) (calls (main px p)) ->
  interval = 1 /\
  attempts = or_1 (param_wait_timeout p) /\
  attempts <> 0 /\
  param_wait p = true /\
  exists c, is_mutation c /\ In c (calls (main px p)).
Proof.
  unfold calls. main_paths px p; intros Hin;
    repeat (destruct Hin as [Hin | Hin]);
    try (destruct Hin; fail);
    try discriminate Hin;
    apply report_run in Hw as (_ & Hp & Hargs & _);
    (assert (Hne : w <> []) by (intros ->; destruct Hin));
    destruct (Hargs _ _ Hin) as [-> ->];
    (split; [reflexivity|]); (split; [reflexivity|]);
    (split; [apply wait_timeout_never_zero|]);
    (split; [exact (Hp Hne)|]);
    eexists; (split; [|right; left; reflexivity]); exact I.
Qed.

Lemma wait_until_arguments_witness :
  1 = 1 /\
  1 = or_1 (param_wait_timeout (Requests.remove_secondary true (Some 0))) /\
  1 <> 0 /\
  param_wait (Requests.remove_secondary true (Some 0)) = true /\
  exists c, is_mutation c /\
            In c (calls (main (Sample.px Requests.building)
                              (Requests.remove_secondary true (Some 0)))).
Proof.
  apply (wait_until_arguments (Sample.px Requests.building)
           (Requests.remove_secondary true (Some 0)) 1 1).
  vm_compute. right. right. left. reflexivity.
Defined.

(** X9: after a mutation that succeeded, with wait set, the polling
    stops at the first status read that is ACTIVE: if that is poll
    number [j+1] and [j] is below the number of attempts, exactly
    [j+1] polls are made and the run reports changed=true. *)
Theorem wait_stops_at_first_active px p t lb tm result j :
  fetch px p = (t, inr lb) ->
  mutate px p lb = (tm, inr result) ->
  param_wait p = true ->
  (j < Z.to_nat (wait_timeout_of p))%nat ->
  (forall i, (i < j)%nat -> reload_status px i <> "ACTIVE") ->
  reload_status px j = "ACTIVE" ->
  main px p =
  (t ++ tm ++ CallWaitUntil 1 (wait_timeout_of p) ::
     reloads (reload_status px) 0 (S j),
   exit_json true (param_state p) (kwargs result)).
Proof.
  intros Hf Hm Hw Hj Hne Heq.
  rewrite (main_result _ _ _ _ _ _ Hf Hm).
  unfold report, wait_until. rewrite Hw.
  rewrite (wait_loop_first (reload_status px) "ACTIVE" j
             (Z.to_nat (wait_timeout_of p)) 0%nat (status lb) Hj).
  - cbv [bind call ret fail exit run calls outcome negb].
    change (bool_decide ("ACTIVE" = "ACTIVE")) with true.
    cbv beta iota. cbn [fst snd]. rewrite !app_nil_r. reflexivity.
  - intros i Hi. apply Hne. lia.
  - exact Heq.
Qed.

Lemma wait_stops_at_first_active_witness :
  main (Sample.px Answers.settles) (Requests.remove_secondary true (Some 5)) =
  ([CallGet 71] ++ [CallDeleteNode Sample.n2] ++
   CallWaitUntil 1 5 :: reloads Answers.settles 0 3,
   exit_json true "absent" (kwargs ∅)).
Proof.
  apply (wait_stops_at_first_active (Sample.px Answers.settles)
           (Requests.remove_secondary true (Some 5)) [CallGet 71] Sample.lb
           [CallDeleteNode Sample.n2] ∅ 2%nat);
    try reflexivity.
  - vm_compute. lia.
  - intros [|[|i]] Hi; [discriminate | discriminate | lia].
Defined.

(** ** Creating and updating *)

(** X10: with a state other than absent, no node found, a falsy node_id
    and no wait, the node constructor is given the request's address,
    port and weight and its condition and type in upper case; when it
    accepts them and the SDK accepts the [add_nodes] of the node it
    built, the run is the fetch and that one creation, and it reports
    changed=true and the node the SDK returned. *)
Theorem create_reports_sdk_node px p t lb node body :
  fetch px p = (t, inr lb) ->
  param_state p <> "absent" ->
  found p lb = None ->
  truthy_int (param_node_id p) = false ->
  new_node px (mkNewNode (param_address p) (param_port p)
                 (PyStr.and_upper (param_condition p)) (param_weight p)
                 (PyStr.and_upper (param_type p))) = inr node ->
  add_nodes px node = inr body ->
  param_wait p = false ->
  main px p =
  (t ++ [CallAddNodes node], exit_json true (param_state p) (kwargs body)).
Proof.
  intros Hf Hs Hn Ht Hc Ha Hw.
  assert (Hm := mutate_present_missing px p lb Hs Hn).
  rewrite Ht in Hm. unfold new_node_of, condition_of, typ_of in Hm.
  rewrite Hc, Ha in Hm.
  rewrite (main_result _ _ _ _ _ _ Hf Hm), report_no_wait by exact Hw.
  reflexivity.
Qed.

Lemma create_reports_sdk_node_witness :
  main (Sample.px Requests.building) Requests.add_secondary =
  ([CallGet 71] ++
   [CallAddNodes (mkNewNode (Some "10.2.2.6") (Some 8080) (Some "DRAINING")
                    (Some 10) (Some "SECONDARY"))],
   exit_json true "present"
     (kwargs (<["id" := VInt 3]> (<["address" := VStr "10.2.2.6"]> ∅)))).
Proof.
  apply (create_reports_sdk_node (Sample.px Requests.building)
           Requests.add_secondary [CallGet 71] Sample.lb
           (mkNewNode (Some "10.2.2.6") (Some 8080) (Some "DRAINING")
              (Some 10) (Some "SECONDARY"))
           (<["id" := VInt 3]> (<["address" := VStr "10.2.2.6"]> ∅)));
    try reflexivity.
  discriminate.
Defined.

Lemma lookup_node_dict n name :
  rax_clb_node_to_dict (Some n) !! name =
  if decide (name = "id") then Some (VInt (id n))
  else if decide (name = "address") then Some (VStr (address n))
  else if decide (name = "port") then Some (VInt (port n))
  else if decide (name = "condition") then Some (VStr (condition n))
  else if decide (name = "type") then Some (VStr (type n))
  else if decide (name = "weight") then Some (of_int (weight n))
  else None.
Proof.
  unfold rax_clb_node_to_dict. rewrite !lookup_insert, lookup_empty.
  repeat (case_decide; subst; try congruence).
Qed.

Lemma diff_lookup p n name :
  pop_unchanged n (mutable_of p) !! name =
  match mutable_of p !! name with
  | Some v => if unchanged n name v then None else Some v
  | None => None
  end.
Proof. apply lookup_pop_unchanged. Qed.

(** The node reported after an update is the node with the diff in. *)
Lemma updated_dict p n :
  pop_unchanged n (mutable_of p) ∪ rax_clb_node_to_dict (Some n) =
  rax_clb_node_to_dict (Some (apply_diff n (pop_unchanged n (mutable_of p)))).
Proof.
  apply map_eq. intros name.
  rewrite lookup_union, !lookup_node_dict.
  unfold apply_diff. cbn [id address port condition type weight].
  rewrite !diff_lookup, !lookup_mutable_of.
  rewrite (decide_True (P := "condition" = "condition")) by reflexivity.
  rewrite (decide_False (P := "type" = "condition")) by discriminate.
  rewrite (decide_True (P := "type" = "type")) by reflexivity.
  rewrite (decide_False (P := "weight" = "condition")) by discriminate.
  rewrite (decide_False (P := "weight" = "type")) by discriminate.
  rewrite (decide_True (P := "weight" = "weight")) by reflexivity.
  unfold unchanged. rewrite getattr_condition, getattr_type, getattr_weight.
  destruct (decide (name = "id")) as [->|Hid].
  { rewrite decide_False by discriminate. rewrite decide_False by discriminate.
    rewrite decide_False by discriminate. reflexivity. }
  destruct (decide (name = "address")) as [->|Had].
  { rewrite decide_False by discriminate. rewrite decide_False by discriminate.
    rewrite decide_False by discriminate. reflexivity. }
  destruct (decide (name = "port")) as [->|Hpo].
  { rewrite decide_False by discriminate. rewrite decide_False by discriminate.
    rewrite decide_False by discriminate. reflexivity. }
  destruct (decide (name = "condition")) as [->|Hco].
  { rewrite getattr_condition.
    destruct (condition_of p) as [c|]; simpl; [|reflexivity].
    destruct (bool_decide_reflect (VStr c = VStr (condition n))) as [E|E];
      simpl; reflexivity. }
  destruct (decide (name = "type")) as [->|Hty].
  { rewrite getattr_type.
    destruct (typ_of p) as [c|]; simpl; [|reflexivity].
    destruct (bool_decide_reflect (VStr c = VStr (type n))) as [E|E];
      simpl; reflexivity. }
  destruct (decide (name = "weight")) as [->|Hwe].
  { rewrite getattr_weight.
    destruct (param_weight p) as [w|]; simpl; [|reflexivity].
    destruct (bool_decide_reflect (VInt w = of_int (weight n))) as [E|E];
      simpl; [rewrite <- E|]; reflexivity. }
  reflexivity.
Qed.

(** X11: with a state other than absent, a node found, a diff that is not
    empty, an [update_node] the SDK accepts and no wait, the run is the
    fetch and one update of that node with the diff, and the node it
    reports is the node found with the values of the diff in place of
    its own: every attribute outside the diff is reported as it was. *)
Theorem updated_node_is_reported px p t lb n :
  fetch px p = (t, inr lb) ->
  param_state p <> "absent" ->
  found p lb = Some n ->
  pop_unchanged n (mutable_of p) <> ∅ ->
  update_node px n (pop_unchanged n (mutable_of p)) = None ->
  param_wait p = false ->
  main px p =
  (t ++ [CallUpdateNode n (pop_unchanged n (mutable_of p))],
   exit_json true (param_state p)
     (Some (rax_clb_node_to_dict
              (Some (apply_diff n (pop_unchanged n (mutable_of p))))))).
Proof.
  intros Hf Hs Hn Hd Hu Hw.
  assert (Hm := mutate_present_found px p lb n Hs Hn). cbv zeta in Hm.
  rewrite (bool_decide_eq_false_2 _ Hd), Hu in Hm.
  rewrite (main_result _ _ _ _ _ _ Hf Hm), report_no_wait by exact Hw.
  unfold calls, outcome. cbn [fst snd]. rewrite app_nil_r.
  rewrite kwargs_updated, updated_dict. reflexivity.
Qed.

Lemma updated_node_is_reported_witness :
  main (Sample.px Requests.building) (Requests.set_condition "draining") =
  ([CallGet 71] ++
   [CallUpdateNode Sample.n1
      (pop_unchanged Sample.n1 (mutable_of (Requests.set_condition "draining")))],
   exit_json true "present"
     (Some (rax_clb_node_to_dict
              (Some (apply_diff Sample.n1
                       (pop_unchanged Sample.n1
                          (mutable_of (Requests.set_condition "draining")))))))).
Proof.
  apply (updated_node_is_reported (Sample.px Requests.building)
           (Requests.set_condition "draining") [CallGet 71] Sample.lb Sample.n1);
    try reflexivity.
  - discriminate.
  - vm_compute. discriminate.
Defined.

Lemma named_node_missing_fails_witness :
  main (Sample.px Requests.building) (Requests.by_id "present" 999) =
  ([CallGet 71], fail_json (not_found_msg 999 Sample.lb)).
Proof.
  apply (named_node_missing_fails (Sample.px Requests.building)
           (Requests.by_id "present" 999) [CallGet 71] Sample.lb 999);
    try reflexivity.
  lia.
Defined.

(** ** Letter case *)

Lemma lower_upper_ascii c :
  PyStr.lower_ascii (PyStr.upper_ascii c) = PyStr.lower_ascii c.
Proof. destruct c as [[] [] [] [] [] [] [] []]; reflexivity. Qed.

Lemma lower_lower_ascii c :
  PyStr.lower_ascii (PyStr.lower_ascii c) = PyStr.lower_ascii c.
Proof. destruct c as [[] [] [] [] [] [] [] []]; reflexivity. Qed.

Lemma lower_upper s : PyStr.lower (PyStr.upper s) = PyStr.lower s.
Proof.
  induction s as [|c s IH]; simpl; [reflexivity|].
  rewrite lower_upper_ascii, IH. reflexivity.
Qed.

Lemma lower_lower s : PyStr.lower (PyStr.lower s) = PyStr.lower s.
Proof.
  induction s as [|c s IH]; simpl; [reflexivity|].
  rewrite lower_lower_ascii, IH. reflexivity.
Qed.

(** X13: whether a node counts as an enabled primary does not depend on
    the letter case of its type and condition: putting either of them
    in upper or in lower case leaves [_is_primary] as it was. *)
Theorem is_primary_ignores_case n :
  _is_primary (recased PyStr.upper PyStr.upper n) = _is_primary n /\
  _is_primary (recased PyStr.lower PyStr.lower n) = _is_primary n /\
  _is_primary (recased PyStr.upper PyStr.lower n) = _is_primary n /\
  _is_primary (recased PyStr.lower PyStr.upper n) = _is_primary n.
Proof.
  unfold _is_primary, recased. cbn [type condition].
  rewrite !lower_upper, !lower_lower. repeat split.
Qed.

(** ** Narrowing a lookup *)

Lemma get_node_in_supplied ns i a q n :
  _get_node_in ns i a q = Some n -> supplied i a q.
Proof.
  intros H. apply get_node_in_matches in H.
  apply andb_true_iff in H as [H _].
  exact (proj1 (truthy_match_list n i a q) H).
Qed.

(** X14: asking for more does not change what is found, as long as the
    node found has it: when a lookup returns a node and further
    criteria are given that this node matches too, the narrower lookup
    returns the same node. *)
Theorem get_node_narrowed lb i a q i' a' q' n :
  _get_node lb i a q = Some n ->
  narrows i i' -> narrows a a' -> narrows q q' ->
  satisfies i' a' q' n ->
  _get_node lb i' a' q' = Some n.
Proof.
  unfold _get_node. intros Hg Hi Ha Hq Hn.
  assert (Hs := get_node_in_supplied _ _ _ _ _ Hg).
  assert (Hs' : supplied i' a' q').
  { destruct Hs as [H | [H | H]];
      [destruct Hi as [E|E] | destruct Ha as [E|E] | destruct Hq as [E|E]];
      try (destruct (H E));
      [left | right; left | right; right]; congruence. }
  assert (Hspec := get_node_in_spec (nodes lb) i a q Hs).
  rewrite Hg in Hspec. destruct Hspec as (before & after & Hl & _ & Hb).
  apply (get_node_in_first _ before n after); try assumption.
  apply List.Forall_forall. intros m Hm Hsat.
  apply (proj1 (List.Forall_forall _ _) Hb m Hm).
  destruct Hsat as (H1 & H2 & H3).
  repeat split; intros x Hx.
  - apply H1. destruct Hi as [E|E]; congruence.
  - apply H2. destruct Ha as [E|E]; congruence.
  - apply H3. destruct Hq as [E|E]; congruence.
Qed.

Lemma get_node_narrowed_witness :
  _get_node Sample.lb (Some 2) (Some "10.2.2.4") (Some 80) = Some Sample.n2.
Proof.
  apply (get_node_narrowed Sample.lb (Some 2) None None
           (Some 2) (Some "10.2.2.4") (Some 80) Sample.n2).
  - reflexivity.
  - right. reflexivity.
  - left. reflexivity.
  - left. reflexivity.
  - repeat split; intros x [= <-]; reflexivity.
Defined.

(** ** Running twice *)

Lemma second_run_is_no_op_witness :
  main (Answers.px
          (inr (mkLB 71 "ACTIVE"
                  (replace_first Sample.n1
                     (apply_diff Sample.n1
                        (pop_unchanged Sample.n1
                           (mutable_of (Requests.set_condition "draining"))))
                     (nodes Sample.lb))))
          Deleted (inl "unused") None Requests.building)
       (Requests.set_condition "draining") =
  ([CallGet 71],
   exit_json false "present"
     (Some (rax_clb_node_to_dict
              (Some (apply_diff Sample.n1
                       (pop_unchanged Sample.n1
                          (mutable_of (Requests.set_condition "draining")))))))).
Proof.
  apply (second_run_is_no_op _ (Requests.set_condition "draining")
           [CallGet 71] Sample.lb
           (mkLB 71 "ACTIVE"
              (replace_first Sample.n1
                 (apply_diff Sample.n1
                    (pop_unchanged Sample.n1
                       (mutable_of (Requests.set_condition "draining"))))
                 (nodes Sample.lb)))
           Sample.n1); reflexivity.
Defined.

Lemma remove_first_only n before after :
  ~ In n before ->
  remove_first n (before ++ n :: after) = before ++ after.
Proof.
  intros Hb. induction before as [|m before IH]; simpl.
  - rewrite decide_True by reflexivity. reflexivity.
  - destruct (decide (m = n)) as [->|Hne].
    + destruct Hb. left. reflexivity.
    + rewrite IH; [reflexivity|]. intros H. apply Hb. right. exact H.
Qed.

Lemma get_node_in_none ns i a q :
  Forall (fun m => ~ satisfies i a q m) ns ->
  _get_node_in ns i a q = None.
Proof.
  induction 1 as [|m ns Hm _ IH]; simpl; [reflexivity|].
  destruct (all (match_list m i a q)) eqn:Ha.
  - apply all_match_list in Ha. destruct (Hm Ha).
  - rewrite andb_false_r. exact IH.
Qed.

(** X16: removing is idempotent when the criteria single out one node: if
    the node found is the only node of the balancer that matches the
    criteria, then once the balancer has taken it off its list the same
    state=absent request finds nothing and reports changed=false after
    the fetch alone. *)
Theorem second_delete_is_no_op px' p t' lb lb' n before after :
  param_state p = "absent" ->
  found p lb = Some n ->
  nodes lb = before ++ n :: after ->
  Forall (fun m => ~ satisfies (param_node_id p) (param_address p)
                                (param_port p) m) (before ++ after) ->
  nodes lb' = remove_first n (nodes lb) ->
  fetch px' p = (t', inr lb') ->
  main px' p = (t', exit_json false "absent" None).
Proof.
  intros Hs Hn Hl Hall Hl' Hf.
  assert (Hsat : satisfies (param_node_id p) (param_address p) (param_port p) n).
  { apply all_match_list. apply get_node_in_matches in Hn.
    apply andb_true_iff in Hn as [_ Hn]. exact Hn. }
  assert (Hb : ~ In n before).
  { intros Hin. apply List.Forall_app in Hall as [Hall _].
    exact (proj1 (List.Forall_forall _ _) Hall n Hin Hsat). }
  assert (Hn' : found p lb' = None).
  { unfold found, _get_node. rewrite Hl', Hl, (remove_first_only _ _ _ Hb).
    apply get_node_in_none, Hall. }
  rewrite (main_exit _ _ _ _ _ _ Hf (mutate_absent_missing px' p lb' Hs Hn')).
  rewrite app_nil_r. reflexivity.
Qed.

Lemma second_delete_is_no_op_witness :
  main (Answers.px (inr (mkLB 71 "ACTIVE" (remove_first Sample.n2 (nodes Sample.lb))))
          Deleted (inl "unused") None Requests.building)
       (Requests.remove_secondary false None) =
  ([CallGet 71], exit_json false "absent" None).
Proof.
  apply (second_delete_is_no_op _ (Requests.remove_secondary false None)
           [CallGet 71] Sample.lb
           (mkLB 71 "ACTIVE" (remove_first Sample.n2 (nodes Sample.lb)))
           Sample.n2 [Sample.n1] []); try reflexivity.
  repeat constructor. intros (H & _). specialize (H 2 eq_refl). discriminate H.
Defined.
